(** * course_catalog_cache: a read-through cache in front of the Courses API

    A shallow embedding of the two view modules of the repository,
    - [src/course_catalog_cache/views.py] (settings-driven, module [CatalogCache]),
    - [src/views.py] (hard-coded constants, module [Legacy]),
    and the properties of the refresh protocol proved about them.

    Modelling conventions.
    - Python values that flow through the code (parsed JSON, cached
      snapshots, the lock token ["1"]) are terms of [pyobj].
    - The view is a program over the primitive operations it performs on its
      collaborators: the Django cache ([get], [add], [set], [delete]), the
      [requests] session ([get]) and the clock.  Programs are terms of
      [Prog]; Python's [try]/[except]/[finally] are combinators on them.
    - The [while url:] loop of the fetcher has no bound in the source; the
      embedding gives it fuel and a [Diverge] leaf for "still looping".
    - The cache store is a finite map from keys to a value and its expiry
      time; an entry is visible while [now < expiry].
    - Settings are typed: key and path options hold strings, the numeric
      options hold integers.  [float(n)] of an integer setting denotes the
      same number of seconds.
    - The decorators [require_GET] and [never_cache] and the logger belong to
      the framework and are not part of the programs below. *)

From Stdlib Require Import Ascii.
From stdpp Require Import gmap strings list fin_maps pretty.

Open Scope string_scope.
Open Scope list_scope.
Open Scope Z_scope.

(** ** Python values *)

#[warnings="-register-all"]
Inductive pyobj : Type :=
| PNone
| PBool (b : bool)
| PInt (z : Z)
| PStr (s : string)
| PList (l : list pyobj)
| PDict (d : list (string * pyobj)).

(** Truth value of an object, as tested by [while url:] and [x or y]. *)
Definition truthy (v : pyobj) : bool :=
  match v with
  | PNone => false
  | PBool b => b
  | PInt z => negb (z =? 0)
  | PStr s => negb (String.eqb s "")
  | PList l => match l with [] => false | _ => true end
  | PDict d => match d with [] => false | _ => true end
  end.

(** [x or y] *)
Definition py_or (x y : pyobj) : pyobj := if truthy x then x else y.

(** [type(v).__name__], used in attribute-error messages. *)
Definition type_name (v : pyobj) : string :=
  match v with
  | PNone => "NoneType"
  | PBool _ => "bool"
  | PInt _ => "int"
  | PStr _ => "str"
  | PList _ => "list"
  | PDict _ => "dict"
  end.

(** Exceptions, all subclasses of [Exception]; [str(exc)] is the message. *)
Inductive exn : Type :=
| RuntimeError (msg : string)
| AttributeError (msg : string)
| TypeError (msg : string)
| RequestException (msg : string)
| JSONDecodeError (msg : string).

Definition str_exc (e : exn) : string :=
  match e with
  | RuntimeError m | AttributeError m | TypeError m
  | RequestException m | JSONDecodeError m => m
  end.

Fixpoint assoc (key : string) (d : list (string * pyobj)) : option pyobj :=
  match d with
  | [] => None
  | (k, v) :: d' => if String.eqb k key then Some v else assoc key d'
  end.

(** [v.get(key)]: defined on dicts, an [AttributeError] on anything else. *)
Definition py_get (v : pyobj) (key : string) : exn + pyobj :=
  match v with
  | PDict d => inr (default PNone (assoc key d))
  | _ => inl (AttributeError ("'" +:+ type_name v +:+ "' object has no attribute 'get'"))
  end.

(** [len(v)] *)
Definition py_len (v : pyobj) : exn + Z :=
  match v with
  | PStr s => inr (Z.of_nat (String.length s))
  | PList l => inr (Z.of_nat (length l))
  | PDict d => inr (Z.of_nat (length d))
  | _ => inl (TypeError ("object of type '" +:+ type_name v +:+ "' has no len()"))
  end.

(** [s[:n]] *)
Definition str_prefix (n : nat) (s : string) : string := String.substring 0 n s.

(** [s.rstrip("/")] *)
Fixpoint rstrip_slash (s : string) : string :=
  match s with
  | EmptyString => EmptyString
  | String c s' =>
      match rstrip_slash s' with
      | EmptyString => if Ascii.eqb c "/"%char then EmptyString else String c EmptyString
      | r => String c r
      end
  end.

(** ** Collaborators *)

(** What [session.get] hands back: [resp.status_code], [resp.text] and the
    outcome of [resp.json()]. *)
Record HttpResponse : Type := {
  status_code : Z;
  text : string;
  resp_json : exn + pyobj
}.

Inductive http_outcome : Type :=
| HttpResp (r : HttpResponse)
| HttpRaise (e : exn).

(** The world outside the process: the upstream API behind [requests] and
    the wall clock.  [http_get] may change the environment (time passes, the
    upstream moves on). *)
Class Environment (Env : Type) : Type := {
  http_get : Env → pyobj → Z → http_outcome * Env;
  clock : Env → Z;
  isoformat : Z → string
}.

(** What the view returns: [JsonResponse(payload, status=...)]. *)
Record JsonResponse : Type := {
  status : Z;
  payload : pyobj
}.

(** [request.is_secure()] and [request.get_host()]. *)
Record HttpRequest : Type := {
  is_secure : bool;
  get_host : string
}.

(** ** Programs over the collaborators *)

Inductive Prog (A : Type) : Type :=
| Ret (a : A)
| Raise (e : exn)
| Diverge
| CacheGet (key : string) (k : pyobj → Prog A)
| CacheAdd (key : string) (value : pyobj) (timeout : Z) (k : bool → Prog A)
| CacheSet (key : string) (value : pyobj) (timeout : Z) (k : unit → Prog A)
| CacheDelete (key : string) (k : unit → Prog A)
| SessionGet (url : pyobj) (timeout : Z) (k : http_outcome → Prog A)
| NowIso (k : string → Prog A).

Arguments Ret {A} a.
Arguments Raise {A} e.
Arguments Diverge {A}.
Arguments CacheGet {A} key k.
Arguments CacheAdd {A} key value timeout k.
Arguments CacheSet {A} key value timeout k.
Arguments CacheDelete {A} key k.
Arguments SessionGet {A} url timeout k.
Arguments NowIso {A} k.

Fixpoint bind {A B : Type} (p : Prog A) (f : A → Prog B) : Prog B :=
  match p with
  | Ret a => f a
  | Raise e => Raise e
  | Diverge => Diverge
  | CacheGet key k => CacheGet key (λ v, bind (k v) f)
  | CacheAdd key value timeout k => CacheAdd key value timeout (λ b, bind (k b) f)
  | CacheSet key value timeout k => CacheSet key value timeout (λ u, bind (k u) f)
  | CacheDelete key k => CacheDelete key (λ u, bind (k u) f)
  | SessionGet url timeout k => SessionGet url timeout (λ o, bind (k o) f)
  | NowIso k => NowIso (λ s, bind (k s) f)
  end.

Notation "'let*' x := p 'in' q" := (bind p (λ x, q))
  (at level 10, x binder, p at level 100, q at level 200,
   format "'[v' 'let*'  x  :=  p  'in' '/' q ']'").

(** [try: p except Exception as exc: h exc] *)
Fixpoint try_except {A : Type} (p : Prog A) (h : exn → Prog A) : Prog A :=
  match p with
  | Ret a => Ret a
  | Raise e => h e
  | Diverge => Diverge
  | CacheGet key k => CacheGet key (λ v, try_except (k v) h)
  | CacheAdd key value timeout k => CacheAdd key value timeout (λ b, try_except (k b) h)
  | CacheSet key value timeout k => CacheSet key value timeout (λ u, try_except (k u) h)
  | CacheDelete key k => CacheDelete key (λ u, try_except (k u) h)
  | SessionGet url timeout k => SessionGet url timeout (λ o, try_except (k o) h)
  | NowIso k => NowIso (λ s, try_except (k s) h)
  end.

(** [try: p finally: fin]: [fin] runs on a return and on a raise, and the
    return value or the exception is passed on afterwards. *)
Fixpoint try_finally {A : Type} (p : Prog A) (fin : Prog unit) : Prog A :=
  match p with
  | Ret a => bind fin (λ _, Ret a)
  | Raise e => bind fin (λ _, Raise e)
  | Diverge => Diverge
  | CacheGet key k => CacheGet key (λ v, try_finally (k v) fin)
  | CacheAdd key value timeout k => CacheAdd key value timeout (λ b, try_finally (k b) fin)
  | CacheSet key value timeout k => CacheSet key value timeout (λ u, try_finally (k u) fin)
  | CacheDelete key k => CacheDelete key (λ u, try_finally (k u) fin)
  | SessionGet url timeout k => SessionGet url timeout (λ o, try_finally (k o) fin)
  | NowIso k => NowIso (λ s, try_finally (k s) fin)
  end.

(** A pure step that may raise. *)
Definition lift {A : Type} (r : exn + A) : Prog A :=
  match r with
  | inl e => Raise e
  | inr a => Ret a
  end.

Definition cache_get (key : string) : Prog pyobj := CacheGet key Ret.
Definition cache_add (key : string) (value : pyobj) (timeout : Z) : Prog bool :=
  CacheAdd key value timeout Ret.
Definition cache_set (key : string) (value : pyobj) (timeout : Z) : Prog unit :=
  CacheSet key value timeout Ret.
Definition cache_delete (key : string) : Prog unit := CacheDelete key Ret.
Definition session_get (url : pyobj) (timeout : Z) : Prog HttpResponse :=
  SessionGet url timeout (λ o, match o with HttpResp r => Ret r | HttpRaise e => Raise e end).
Definition now_iso : Prog string := NowIso Ret.

(** ** Running a program *)

(** The world a program runs in: the cache store, each entry a value with
    the time at which it expires, and the environment. *)
Record World (Env : Type) : Type := {
  store : gmap string (pyobj * Z);
  env : Env
}.
Arguments store {Env} w.
Arguments env {Env} w.

Inductive Event : Type :=
| EvGet (key : string)
| EvAdd (key : string) (value : pyobj) (timeout : Z)
| EvSet (key : string) (value : pyobj) (timeout : Z)
| EvDelete (key : string)
| EvHttp (url : pyobj) (timeout : Z)
| EvNow.

(** What an operation answered. *)
Inductive Answer : Type :=
| AObj (v : pyobj)
| ABool (b : bool)
| AUnit
| AHttp (o : http_outcome)
| AStr (s : string).

Inductive Outcome (A : Type) : Type :=
| Returned (a : A)
| Raised (e : exn)
| Looping.
Arguments Returned {A} a.
Arguments Raised {A} e.
Arguments Looping {A}.

(** The entry under [key] that a reader sees at time [now]. *)
Definition live (st : gmap string (pyobj * Z)) (now : Z) (key : string) : option pyobj :=
  match st !! key with
  | Some (v, expiry) => if now <? expiry then Some v else None
  | None => None
  end.

Section Run.
Context {Env : Type} `{Environment Env}.

(** [cache.get(key)]: the live value, [None] when absent or expired. *)
Definition store_get (w : World Env) (key : string) : pyobj :=
  default PNone (live (store w) (clock (env w)) key).

(** [cache.set(key, value, timeout)] *)
Definition store_set (w : World Env) (key : string) (value : pyobj) (timeout : Z) : World Env :=
  {| store := <[key := (value, clock (env w) + timeout)]> (store w); env := env w |}.

(** [cache.add(key, value, timeout)]: stores and answers [True] only when
    no live entry is there, in one indivisible step. *)
Definition store_add (w : World Env) (key : string) (value : pyobj) (timeout : Z)
  : bool * World Env :=
  match live (store w) (clock (env w)) key with
  | Some _ => (false, w)
  | None => (true, store_set w key value timeout)
  end.

(** [cache.delete(key)] *)
Definition store_delete (w : World Env) (key : string) : World Env :=
  {| store := delete key (store w); env := env w |}.

Fixpoint run {A : Type} (p : Prog A) (w : World Env) : Outcome A * World Env * list Event :=
  match p with
  | Ret a => (Returned a, w, [])
  | Raise e => (Raised e, w, [])
  | Diverge => (Looping, w, [])
  | CacheGet key k =>
      let '(o, w', tr) := run (k (store_get w key)) w in
      (o, w', EvGet key :: tr)
  | CacheAdd key value timeout k =>
      let '(b, w1) := store_add w key value timeout in
      let '(o, w', tr) := run (k b) w1 in
      (o, w', EvAdd key value timeout :: tr)
  | CacheSet key value timeout k =>
      let '(o, w', tr) := run (k ()) (store_set w key value timeout) in
      (o, w', EvSet key value timeout :: tr)
  | CacheDelete key k =>
      let '(o, w', tr) := run (k ()) (store_delete w key) in
      (o, w', EvDelete key :: tr)
  | SessionGet url timeout k =>
      let '(r, e') := http_get (env w) url timeout in
      let '(o, w', tr) := run (k r) {| store := store w; env := e' |} in
      (o, w', EvHttp url timeout :: tr)
  | NowIso k =>
      let '(o, w', tr) := run (k (isoformat (clock (env w)))) w in
      (o, w', EvNow :: tr)
  end.

(** The first operation of a program, performed on the world: the
    operation, its answer, the rest of the program and the new world. *)
Definition head_step {A : Type} (p : Prog A) (w : World Env)
  : option (Event * Answer * Prog A * World Env) :=
  match p with
  | Ret _ | Raise _ | Diverge => None
  | CacheGet key k =>
      let v := store_get w key in Some (EvGet key, AObj v, k v, w)
  | CacheAdd key value timeout k =>
      let '(b, w1) := store_add w key value timeout in
      Some (EvAdd key value timeout, ABool b, k b, w1)
  | CacheSet key value timeout k =>
      Some (EvSet key value timeout, AUnit, k (), store_set w key value timeout)
  | CacheDelete key k =>
      Some (EvDelete key, AUnit, k (), store_delete w key)
  | SessionGet url timeout k =>
      let '(r, e') := http_get (env w) url timeout in
      Some (EvHttp url timeout, AHttp r, k r, {| store := store w; env := e' |})
  | NowIso k =>
      let t := isoformat (clock (env w)) in Some (EvNow, AStr t, k t, w)
  end.

(** *** Concurrent workers

    Request handlers run in any number of workers that share nothing but
    the cache store.  A pool is the shared world and the program each
    worker has left to run; a move lets one worker perform its next
    operation, or lets the environment change (time passes). *)
Record Pool (A : Type) : Type := {
  shared : World Env;
  workers : list (Prog A)
}.
Arguments shared {A} _.
Arguments workers {A} _.

Inductive Move : Type :=
| Work (i : nat)
| Elapse (e : Env).

Definition pool_step {A : Type} (pl : Pool A) (m : Move)
  : Pool A * list (nat * Event * Answer) :=
  match m with
  | Elapse e =>
      ({| shared := {| store := store (shared pl); env := e |}; workers := workers pl |}, [])
  | Work i =>
      match workers pl !! i with
      | Some p =>
          match head_step p (shared pl) with
          | Some (ev, a, p', w') =>
              ({| shared := w'; workers := <[i := p']> (workers pl) |}, [(i, ev, a)])
          | None => (pl, [])
          end
      | None => (pl, [])
      end
  end.

Fixpoint pool_run {A : Type} (pl : Pool A) (ms : list Move)
  : Pool A * list (nat * Event * Answer) :=
  match ms with
  | [] => (pl, [])
  | m :: ms' =>
      let '(pl1, tr1) := pool_step pl m in
      let '(pl2, tr2) := pool_run pl1 ms' in
      (pl2, (tr1 ++ tr2)%list)
  end.

(** The entry under [key], if any, has not expired. *)
Definition unexpired (key : string) (w : World Env) : Prop :=
  ∀ v expiry, store w !! key = Some (v, expiry) → clock (env w) < expiry.

(** [key] never expires in the states the pool goes through. *)
Fixpoint in_window {A : Type} (key : string) (pl : Pool A) (ms : list Move) : Prop :=
  unexpired key (shared pl) ∧
  match ms with
  | [] => True
  | m :: ms' => in_window key (fst (pool_step pl m)) ms'
  end.
End Run.

Arguments shared {Env A} _.
Arguments workers {Env A} _.
Arguments Work {Env} i.
Arguments Elapse {Env} e.

(** The workers that hold the lock [key] after a trace: a successful [add]
    enters, a [delete] by the same worker leaves. *)
Fixpoint holders (key : string) (held : list nat) (tr : list (nat * Event * Answer)) : list nat :=
  match tr with
  | [] => held
  | (i, EvAdd k _ _, ABool true) :: tr' =>
      if String.eqb k key then holders key (i :: held) tr' else holders key held tr'
  | (i, EvDelete k, _) :: tr' =>
      if String.eqb k key then holders key (filter (λ j, j ≠ i) held) tr'
      else holders key held tr'
  | _ :: tr' => holders key held tr'
  end.

(** ** Programs against arbitrary answers

    [replay p answers] follows [p] when its operations are answered, in
    order, by [answers]: whatever other workers and the upstream do between
    two operations shows up only through the answers. *)
Fixpoint replay {A : Type} (p : Prog A) (answers : list Answer)
  : option (Outcome A * list Event) :=
  let cons_ev ev r := (λ '(o, tr), (o, ev :: tr)) <$> r in
  match p, answers with
  | Ret a, [] => Some (Returned a, [])
  | Raise e, [] => Some (Raised e, [])
  | Diverge, [] => Some (Looping, [])
  | CacheGet key k, AObj v :: rest => cons_ev (EvGet key) (replay (k v) rest)
  | CacheAdd key value timeout k, ABool b :: rest =>
      cons_ev (EvAdd key value timeout) (replay (k b) rest)
  | CacheSet key value timeout k, AUnit :: rest =>
      cons_ev (EvSet key value timeout) (replay (k ()) rest)
  | CacheDelete key k, AUnit :: rest => cons_ev (EvDelete key) (replay (k ()) rest)
  | SessionGet url timeout k, AHttp o :: rest =>
      cons_ev (EvHttp url timeout) (replay (k o) rest)
  | NowIso k, AStr t :: rest => cons_ev EvNow (replay (k t) rest)
  | _, _ => None
  end.

(** ** Programs that perform the same operations

    [peq p q]: [p] and [q] perform the same operation with the same
    arguments at every point and end in the same way, whatever they are
    answered. *)
Inductive peq {A : Type} : Prog A → Prog A → Prop :=
| peq_Ret a : peq (Ret a) (Ret a)
| peq_Raise e : peq (Raise e) (Raise e)
| peq_Diverge : peq Diverge Diverge
| peq_CacheGet key k k' :
    (∀ v, peq (k v) (k' v)) → peq (CacheGet key k) (CacheGet key k')
| peq_CacheAdd key value timeout k k' :
    (∀ b, peq (k b) (k' b)) →
    peq (CacheAdd key value timeout k) (CacheAdd key value timeout k')
| peq_CacheSet key value timeout k k' :
    (∀ u, peq (k u) (k' u)) →
    peq (CacheSet key value timeout k) (CacheSet key value timeout k')
| peq_CacheDelete key k k' :
    (∀ u, peq (k u) (k' u)) → peq (CacheDelete key k) (CacheDelete key k')
| peq_SessionGet url timeout k k' :
    (∀ o, peq (k o) (k' o)) → peq (SessionGet url timeout k) (SessionGet url timeout k')
| peq_NowIso k k' :
    (∀ t, peq (k t) (k' t)) → peq (NowIso k) (NowIso k').

(** ** Settings *)

(** The attributes of [django.conf.settings] that the two modules read; [None]
    stands for an attribute that is not set. *)
Record Settings : Type := {
  LMS_ROOT_URL : option string;
  COURSE_CATALOG_CACHE_CACHE_KEY : option string;
  COURSE_CATALOG_CACHE_STALE_KEY : option string;
  COURSE_CATALOG_CACHE_LOCK_KEY : option string;
  COURSE_CATALOG_CACHE_CACHE_TTL_SECONDS : option Z;
  COURSE_CATALOG_CACHE_STALE_TTL_SECONDS : option Z;
  COURSE_CATALOG_CACHE_LOCK_TTL_SECONDS : option Z;
  COURSE_CATALOG_CACHE_REQUEST_TIMEOUT_SECONDS : option Z;
  COURSE_CATALOG_CACHE_PAGE_SIZE : option Z;
  COURSE_CATALOG_CACHE_API_PATH : option string
}.

(** ** The settings-driven view, [src/course_catalog_cache/views.py] *)

Module CatalogCache.

Module DEFAULTS.
Definition CACHE_KEY : string := "upvx:courses_all:v1".
Definition STALE_KEY : string := "upvx:courses_all:stale:v1".
Definition LOCK_KEY : string := "upvx:courses_all:lock:v1".
Definition CACHE_TTL_SECONDS : Z := 15 * 60.
Definition STALE_TTL_SECONDS : Z := 24 * 60 * 60.
Definition LOCK_TTL_SECONDS : Z := 20.
Definition REQUEST_TIMEOUT_SECONDS : Z := 8.
Definition PAGE_SIZE : Z := 100.
Definition API_PATH : string := "/api/courses/v1/courses/".
End DEFAULTS.

(** [getattr(settings, "COURSE_CATALOG_CACHE_" + name, DEFAULTS[name])] *)
Definition _cfg {A : Type} (settings : Settings) (attr : Settings → option A) (dflt : A) : A :=
  default dflt (attr settings).

Definition cfg_cache_key (s : Settings) : string :=
  _cfg s COURSE_CATALOG_CACHE_CACHE_KEY DEFAULTS.CACHE_KEY.
Definition cfg_stale_key (s : Settings) : string :=
  _cfg s COURSE_CATALOG_CACHE_STALE_KEY DEFAULTS.STALE_KEY.
Definition cfg_lock_key (s : Settings) : string :=
  _cfg s COURSE_CATALOG_CACHE_LOCK_KEY DEFAULTS.LOCK_KEY.
Definition cfg_cache_ttl (s : Settings) : Z :=
  _cfg s COURSE_CATALOG_CACHE_CACHE_TTL_SECONDS DEFAULTS.CACHE_TTL_SECONDS.
Definition cfg_stale_ttl (s : Settings) : Z :=
  _cfg s COURSE_CATALOG_CACHE_STALE_TTL_SECONDS DEFAULTS.STALE_TTL_SECONDS.
Definition cfg_lock_ttl (s : Settings) : Z :=
  _cfg s COURSE_CATALOG_CACHE_LOCK_TTL_SECONDS DEFAULTS.LOCK_TTL_SECONDS.
Definition cfg_request_timeout (s : Settings) : Z :=
  _cfg s COURSE_CATALOG_CACHE_REQUEST_TIMEOUT_SECONDS DEFAULTS.REQUEST_TIMEOUT_SECONDS.
Definition cfg_page_size (s : Settings) : Z :=
  _cfg s COURSE_CATALOG_CACHE_PAGE_SIZE DEFAULTS.PAGE_SIZE.
Definition cfg_api_path (s : Settings) : string :=
  _cfg s COURSE_CATALOG_CACHE_API_PATH DEFAULTS.API_PATH.

Definition _get_site_root (settings : Settings) : string :=
  rstrip_slash (default "" (LMS_ROOT_URL settings)).

Definition _build_internal_url (settings : Settings) (request : HttpRequest)
    (path query : string) : string :=
  let root := _get_site_root settings in
  if negb (String.eqb root "") then root +:+ path +:+ query
  else
    let scheme := if is_secure request then "https" else "http" in
    let host := get_host request in
    scheme +:+ "://" +:+ host +:+ path +:+ query.

(** The message of the [RuntimeError] raised on a page that is not a 200. *)
Definition failure_message (page : Z) (resp : HttpResponse) : string :=
  "Courses API failed page=" +:+ pretty page +:+ " status=" +:+ pretty (status_code resp)
    +:+ " body=" +:+ str_prefix 300 (text resp).

(** The [while url:] loop; [fuel] bounds the number of iterations. *)
Fixpoint fetch_loop (fuel : nat) (settings : Settings) (url : pyobj) (page : Z)
    (all_results : list pyobj) : Prog (list pyobj) :=
  if truthy url then
    match fuel with
    | O => Diverge
    | S fuel' =>
        let* resp := session_get url (cfg_request_timeout settings) in
        if negb (status_code resp =? 200) then
          Raise (RuntimeError (failure_message page resp))
        else
          let* data := lift (resp_json resp) in
          let* r := lift (py_get data "results") in
          let results := py_or r (PList []) in
          let results := match results with PList l => l | _ => [] end in
          let all_results := (all_results ++ results)%list in
          let* p := lift (py_get data "pagination") in
          let pagination := py_or p (PDict []) in
          let* url := lift (py_get pagination "next") in
          fetch_loop fuel' settings url (page + 1) all_results
    end
  else Ret all_results.

Definition _fetch_all_courses_from_courses_api (fuel : nat) (settings : Settings)
    (request : HttpRequest) : Prog (list pyobj) :=
  let page_size := cfg_page_size settings in
  let api_path := cfg_api_path settings in
  let url := _build_internal_url settings request api_path ("?page_size=" +:+ pretty page_size) in
  fetch_loop fuel settings (PStr url) 1 [].

Definition _json_response (results : pyobj) (source : string) (http_status : Z)
  : Prog JsonResponse :=
  let* count := lift (py_len results) in
  let* generated_at := now_iso in
  Ret {| status := http_status;
         payload := PDict [("count", PInt count); ("results", results);
                           ("source", PStr source); ("generated_at", PStr generated_at);
                           ("version", PInt 1)] |}.

Definition refresh_failed (exc : exn) : Prog JsonResponse :=
  let* generated_at := now_iso in
  Ret {| status := 502;
         payload := PDict [("detail", PStr "Could not refresh courses catalog and no stale cache available.");
                           ("error", PStr (str_exc exc));
                           ("generated_at", PStr generated_at)] |}.

Definition warming_up : Prog JsonResponse :=
  let* generated_at := now_iso in
  Ret {| status := 503;
         payload := PDict [("detail", PStr "Courses catalog is warming up. Please retry.");
                           ("generated_at", PStr generated_at)] |}.

Definition is_not_none (v : pyobj) : bool :=
  match v with PNone => false | _ => true end.

Definition courses_all (fuel : nat) (settings : Settings) (request : HttpRequest)
  : Prog JsonResponse :=
  let cache_key := cfg_cache_key settings in
  let stale_key := cfg_stale_key settings in
  let lock_key := cfg_lock_key settings in
  let* cached := cache_get cache_key in
  if is_not_none cached then _json_response cached "cache" 200
  else
    let* got_lock := cache_add lock_key (PStr "1") (cfg_lock_ttl settings) in
    if got_lock : bool then
      try_finally
        (try_except
           (let* results := _fetch_all_courses_from_courses_api fuel settings request in
            let* _ := cache_set cache_key (PList results) (cfg_cache_ttl settings) in
            let* _ := cache_set stale_key (PList results) (cfg_stale_ttl settings) in
            _json_response (PList results) "fresh" 200)
           (λ exc,
              let* stale := cache_get stale_key in
              if is_not_none stale then _json_response stale "stale" 200
              else refresh_failed exc))
        (cache_delete lock_key)
    else
      let* stale := cache_get stale_key in
      if is_not_none stale then _json_response stale "stale" 200
      else
        let* cached2 := cache_get cache_key in
        if is_not_none cached2 then _json_response cached2 "cache" 200
        else warming_up.

End CatalogCache.

(** ** The view with hard-coded constants, [src/views.py] *)

Module Legacy.

Definition CACHE_KEY : string := "upvx:courses_all:v1".
Definition STALE_KEY : string := "upvx:courses_all:stale:v1".
Definition LOCK_KEY : string := "upvx:courses_all:lock:v1".

Definition CACHE_TTL_SECONDS : Z := 15 * 60.
Definition STALE_TTL_SECONDS : Z := 24 * 60 * 60.
Definition LOCK_TTL_SECONDS : Z := 20.
Definition REQUEST_TIMEOUT_SECONDS : Z := 8.

Definition _get_site_root (settings : Settings) : string :=
  rstrip_slash (default "" (LMS_ROOT_URL settings)).

Definition _build_internal_url (settings : Settings) (request : HttpRequest)
    (path : string) : string :=
  let root := _get_site_root settings in
  if negb (String.eqb root "") then root +:+ path
  else
    let scheme := if is_secure request then "https" else "http" in
    let host := get_host request in
    scheme +:+ "://" +:+ host +:+ path.

Definition failure_message (page : Z) (resp : HttpResponse) : string :=
  "Courses API failed page=" +:+ pretty page +:+ " status=" +:+ pretty (status_code resp)
    +:+ " body=" +:+ str_prefix 300 (text resp).

Fixpoint fetch_loop (fuel : nat) (url : pyobj) (page : Z) (all_results : list pyobj)
  : Prog (list pyobj) :=
  if truthy url then
    match fuel with
    | O => Diverge
    | S fuel' =>
        let* resp := session_get url REQUEST_TIMEOUT_SECONDS in
        if negb (status_code resp =? 200) then
          Raise (RuntimeError (failure_message page resp))
        else
          let* data := lift (resp_json resp) in
          let* r := lift (py_get data "results") in
          let results := py_or r (PList []) in
          let results := match results with PList l => l | _ => [] end in
          let all_results := (all_results ++ results)%list in
          let* p := lift (py_get data "pagination") in
          let pagination := py_or p (PDict []) in
          let* url := lift (py_get pagination "next") in
          fetch_loop fuel' url (page + 1) all_results
    end
  else Ret all_results.

Definition _fetch_all_courses_from_courses_api (fuel : nat) (settings : Settings)
    (request : HttpRequest) : Prog (list pyobj) :=
  let url := _build_internal_url settings request "/api/courses/v1/courses/?page_size=100" in
  fetch_loop fuel (PStr url) 1 [].

Definition _json_response (results : pyobj) (source : string) (http_status : Z)
  : Prog JsonResponse :=
  let* count := lift (py_len results) in
  let* generated_at := now_iso in
  Ret {| status := http_status;
         payload := PDict [("count", PInt count); ("results", results);
                           ("source", PStr source); ("generated_at", PStr generated_at);
                           ("version", PInt 1)] |}.

Definition courses_all (fuel : nat) (settings : Settings) (request : HttpRequest)
  : Prog JsonResponse :=
  let* cached := cache_get CACHE_KEY in
  if CatalogCache.is_not_none cached then _json_response cached "cache" 200
  else
    let* got_lock := cache_add LOCK_KEY (PStr "1") LOCK_TTL_SECONDS in
    if got_lock : bool then
      try_finally
        (try_except
           (let* results := _fetch_all_courses_from_courses_api fuel settings request in
            let* _ := cache_set CACHE_KEY (PList results) CACHE_TTL_SECONDS in
            let* _ := cache_set STALE_KEY (PList results) STALE_TTL_SECONDS in
            _json_response (PList results) "fresh" 200)
           (λ exc,
              let* stale := cache_get STALE_KEY in
              if CatalogCache.is_not_none stale then _json_response stale "stale" 200
              else
                let* generated_at := now_iso in
                Ret {| status := 502;
                       payload := PDict [("detail", PStr "Could not refresh courses catalog and no stale cache available.");
                                         ("error", PStr (str_exc exc));
                                         ("generated_at", PStr generated_at)] |}))
        (cache_delete LOCK_KEY)
    else
      let* stale := cache_get STALE_KEY in
      if CatalogCache.is_not_none stale then _json_response stale "stale" 200
      else
        let* cached2 := cache_get CACHE_KEY in
        if CatalogCache.is_not_none cached2 then _json_response cached2 "cache" 200
        else
          let* generated_at := now_iso in
          Ret {| status := 503;
                 payload := PDict [("detail", PStr "Courses catalog is warming up. Please retry.");
                                   ("generated_at", PStr generated_at)] |}.

End Legacy.

(** ** A scripted environment

    An upstream that answers each URL from a fixed table and a clock that
    advances by a fixed latency on every call; used to run the views on
    concrete inputs. *)

Record Scripted : Type := {
  s_now : Z;
  s_latency : Z;
  s_routes : list (string * http_outcome)
}.

Fixpoint route (u : string) (routes : list (string * http_outcome)) : http_outcome :=
  match routes with
  | [] => HttpRaise (RequestException "connection refused")
  | (u', o) :: routes' => if String.eqb u' u then o else route u routes'
  end.

#[export] Instance Scripted_env : Environment Scripted := {|
  http_get e url timeout :=
    (match url with
     | PStr u => route u (s_routes e)
     | _ => HttpRaise (RequestException "invalid URL")
     end,
     {| s_now := s_now e + s_latency e; s_latency := s_latency e; s_routes := s_routes e |});
  clock := s_now;
  isoformat := pretty
|}.

Definition ok_page (results : pyobj) (next : pyobj) : http_outcome :=
  HttpResp {| status_code := 200; text := "";
              resp_json := inr (PDict [("results", results);
                                       ("pagination", PDict [("next", next)])]) |}.

Definition no_settings : Settings := {|
  LMS_ROOT_URL := None;
  COURSE_CATALOG_CACHE_CACHE_KEY := None;
  COURSE_CATALOG_CACHE_STALE_KEY := None;
  COURSE_CATALOG_CACHE_LOCK_KEY := None;
  COURSE_CATALOG_CACHE_CACHE_TTL_SECONDS := None;
  COURSE_CATALOG_CACHE_STALE_TTL_SECONDS := None;
  COURSE_CATALOG_CACHE_LOCK_TTL_SECONDS := None;
  COURSE_CATALOG_CACHE_REQUEST_TIMEOUT_SECONDS := None;
  COURSE_CATALOG_CACHE_PAGE_SIZE := None;
  COURSE_CATALOG_CACHE_API_PATH := None
|}.

Definition lms_request : HttpRequest := {| is_secure := true; get_host := "lms" |}.

Definition page1_url : string := "https://lms/api/courses/v1/courses/?page_size=100".
Definition page2_url : string := "https://lms/api/courses/v1/courses/?page=2".
Definition page3_url : string := "https://lms/api/courses/v1/courses/?page=3".

Definition course (name : string) : pyobj := PDict [("id", PStr name)].

(** Three pages, the last with [next: null]. *)
Definition three_pages : list (string * http_outcome) :=
  [ (page1_url, ok_page (PList [course "a"; course "b"]) (PStr page2_url));
    (page2_url, ok_page (PList [course "c"]) (PStr page3_url));
    (page3_url, ok_page (PList [course "d"; course "e"]) PNone) ].

Definition scripted_world (now : Z) (routes : list (string * http_outcome))
    (st : gmap string (pyobj * Z)) : World Scripted :=
  {| store := st; env := {| s_now := now; s_latency := 1; s_routes := routes |} |}.

(** *** Concrete worlds *)

(** A cold store at time 1000 in front of the three-page upstream. *)
Definition cold : World Scripted := scripted_world 1000 three_pages ∅.

(** A store that holds only a stale snapshot, in front of an upstream that
    cannot be reached. *)
Definition stale_only : World Scripted :=
  scripted_world 1000 [] {[ "upvx:courses_all:stale:v1" := (PList [course "old"], 5000) ]}.

(** An upstream whose second page answers 500. *)
Definition broken_page : HttpResponse :=
  {| status_code := 500;
     text := "Internal Server Error";
     resp_json := inl (JSONDecodeError "Expecting value: line 1 column 1 (char 0)") |}.

Definition broken_upstream : list (string * http_outcome) :=
  [ (page1_url, ok_page (PList [course "a"; course "b"]) (PStr page2_url));
    (page2_url, HttpResp broken_page) ].

Definition cold_broken : World Scripted := scripted_world 1000 broken_upstream ∅.

(** A page whose [results] is a string. *)
Definition odd_page : HttpResponse :=
  {| status_code := 200;
     text := "";
     resp_json := inr (PDict [("results", PStr "oops");
                             ("pagination", PDict [("next", PStr page3_url)])]) |}.

Definition odd_upstream : list (string * http_outcome) :=
  [ (page1_url, ok_page (PList [course "a"; course "b"]) (PStr page2_url));
    (page2_url, HttpResp odd_page);
    (page3_url, ok_page (PList [course "d"; course "e"]) PNone) ].

(** Two workers on a cold store; both miss the fresh key and contest the
    lock, the first wins and fetches the three pages while the second gives
    up with "warming up". *)
Definition two_workers : Pool (Env := Scripted) JsonResponse :=
  {| shared := cold;
     workers := (λ r, CatalogCache.courses_all r.1 no_settings r.2)
                  <$> [(10%nat, lms_request); (10%nat, lms_request)] |}.

Definition contest : list (Move (Env := Scripted)) :=
  [Work 0; Work 1; Work 0; Work 1; Work 0; Work 1; Work 1; Work 0; Work 1; Work 0;
   Work 0; Work 0; Work 0; Work 0].

(** ** Shapes of programs with respect to a lock key *)

(** Only reads: no [add], [set], [delete] and no upstream call. *)
Fixpoint quiet {A : Type} (p : Prog A) : Prop :=
  match p with
  | Ret _ | Raise _ | Diverge => True
  | CacheGet _ k => ∀ v, quiet (k v)
  | NowIso k => ∀ t, quiet (k t)
  | _ => False
  end.

(** The protected part of a refresh: never contests or releases the lock
    and never writes the lock key. *)
Fixpoint body {A : Type} (lock : string) (p : Prog A) : Prop :=
  match p with
  | Ret _ | Raise _ | Diverge => True
  | CacheGet _ k => ∀ v, body lock (k v)
  | CacheAdd _ _ _ _ => False
  | CacheSet key _ _ k => key ≠ lock ∧ ∀ u, body lock (k u)
  | CacheDelete _ _ => False
  | SessionGet _ _ k => ∀ o, body lock (k o)
  | NowIso k => ∀ t, body lock (k t)
  end.

(** What a worker that holds the lock has left to run: a protected part,
    then at most one [delete] of the lock key, then only reads. *)
Fixpoint critical {A : Type} (lock : string) (p : Prog A) : Prop :=
  match p with
  | Ret _ | Raise _ | Diverge => True
  | CacheGet _ k => ∀ v, critical lock (k v)
  | CacheAdd _ _ _ _ => False
  | CacheSet key _ _ k => key ≠ lock ∧ ∀ u, critical lock (k u)
  | CacheDelete key k => key = lock ∧ ∀ u, quiet (k u)
  | SessionGet _ _ k => ∀ o, critical lock (k o)
  | NowIso k => ∀ t, critical lock (k t)
  end.

(** What a worker that does not hold the lock has left to run: reads, then
    at most one [add] of the lock key; a critical part if the [add]
    succeeds, only reads if it fails. *)
Fixpoint contender {A : Type} (lock : string) (p : Prog A) : Prop :=
  match p with
  | Ret _ | Raise _ | Diverge => True
  | CacheGet _ k => ∀ v, contender lock (k v)
  | NowIso k => ∀ t, contender lock (k t)
  | CacheAdd key _ _ k => key = lock ∧ critical lock (k true) ∧ quiet (k false)
  | _ => False
  end.

(** ** Upstream pagination *)

(** A 200 answer whose body holds the list [results] and whose
    [pagination.next] is [next] ([None] when the field is missing or null). *)
Definition page_of (resp : HttpResponse) (results : list pyobj) (next : pyobj) : Prop :=
  status_code resp = 200 ∧
  ∃ data pagination,
    resp_json resp = inr (PDict data) ∧
    assoc "results" data = Some (PList results) ∧
    assoc "pagination" data = Some (PDict pagination) ∧
    default PNone (assoc "next" pagination) = next.

(** [paging timeout e url pages e' url']: asked at [url] in environment [e],
    the upstream serves [pages] one after the other, each page's [next]
    being the URL of the following one, and leaves the environment [e']
    and the last page's [next], [url']. *)
Inductive paging {Env : Type} `{Environment Env} (timeout : Z)
  : Env → pyobj → list (list pyobj) → Env → pyobj → Prop :=
| paging_nil e url : paging timeout e url [] e url
| paging_cons e url resp e1 results next pages e' url' :
    truthy url = true →
    http_get e url timeout = (HttpResp resp, e1) →
    page_of resp results next →
    paging timeout e1 next pages e' url' →
    paging timeout e url (results :: pages) e' url'.

(** The settings keep the three cache keys apart. *)
Definition distinct_keys (s : Settings) : Prop :=
  CatalogCache.cfg_cache_key s ≠ CatalogCache.cfg_stale_key s ∧
  CatalogCache.cfg_cache_key s ≠ CatalogCache.cfg_lock_key s ∧
  CatalogCache.cfg_stale_key s ≠ CatalogCache.cfg_lock_key s.

(** No [COURSE_CATALOG_CACHE_*] attribute is set. *)
Definition default_settings (s : Settings) : Prop :=
  COURSE_CATALOG_CACHE_CACHE_KEY s = None ∧
  COURSE_CATALOG_CACHE_STALE_KEY s = None ∧
  COURSE_CATALOG_CACHE_LOCK_KEY s = None ∧
  COURSE_CATALOG_CACHE_CACHE_TTL_SECONDS s = None ∧
  COURSE_CATALOG_CACHE_STALE_TTL_SECONDS s = None ∧
  COURSE_CATALOG_CACHE_LOCK_TTL_SECONDS s = None ∧
  COURSE_CATALOG_CACHE_REQUEST_TIMEOUT_SECONDS s = None ∧
  COURSE_CATALOG_CACHE_PAGE_SIZE s = None ∧
  COURSE_CATALOG_CACHE_API_PATH s = None.

(** The body of a snapshot response. *)
Definition snapshot_payload (results : pyobj) (count : Z) (source generated_at : string) : pyobj :=
  PDict [("count", PInt count); ("results", results); ("source", PStr source);
         ("generated_at", PStr generated_at); ("version", PInt 1)].

(** ** Traces *)

(** An upstream request. *)
Definition is_http (ev : Event) : Prop :=
  match ev with EvHttp _ _ => True | _ => False end.

(** Anything but an upstream request. *)
Definition not_http (ev : Event) : Prop :=
  match ev with EvHttp _ _ => False | _ => True end.

(** The URL of the first page. *)
Definition first_url (s : Settings) (req : HttpRequest) : pyobj :=
  PStr (CatalogCache._build_internal_url s req (CatalogCache.cfg_api_path s)
          ("?page_size=" +:+ pretty (CatalogCache.cfg_page_size s))).

(** What a trace must satisfy for the lock [lock], given the workers that
    hold it at the start. *)
Fixpoint exclusive (lock : string) (held : list nat) (tr : list (nat * Event * Answer)) : Prop :=
  match tr with
  | [] => True
  | (i, ev, a) :: tr' =>
      match ev with
      | EvHttp _ _ => held = [i]
      | EvSet key _ _ => key ≠ lock
      | EvAdd key _ _ => key = lock ∧ (a = ABool true → held = [])
      | _ => True
      end ∧
      (length (holders lock held [(i, ev, a)]) ≤ 1)%nat ∧
      exclusive lock (holders lock held [(i, ev, a)]) tr'
  end.

(** What holds of a pool between two moves: at most one worker holds the
    lock, the lock entry is in the store while it does, and every worker has
    the shape of its role left to run. *)
Definition pool_inv {Env A : Type} (lock : string) (pl : Pool (Env := Env) A)
    (held : list nat) : Prop :=
  (held = [] ∨ ∃ i, held = [i] ∧ is_Some (store (shared pl) !! lock)) ∧
  ∀ i p, workers pl !! i = Some p →
    if decide (i ∈ held) then critical lock p else contender lock p.

(** A read of the cache or of the clock. *)
Definition reads_only (ev : Event) : Prop :=
  match ev with EvGet _ | EvNow => True | _ => False end.

(** [len(v)] is defined. *)
Definition is_sized (v : pyobj) : bool :=
  match py_len v with inr _ => true | inl _ => false end.

(** Every entry of the store, expired or not, holds a sized value. *)
Definition store_sized (st : gmap string (pyobj * Z)) : Prop :=
  ∀ key v expiry, st !! key = Some (v, expiry) → is_sized v = true.

(** [n] slashes. *)
Fixpoint slashes (n : nat) : string :=
  match n with
  | O => ""
  | S n' => String "/"%char (slashes n')
  end.

(** The last character of [s] is a slash. *)
Fixpoint ends_with_slash (s : string) : bool :=
  match s with
  | EmptyString => false
  | String c EmptyString => Ascii.eqb c "/"%char
  | String _ s' => ends_with_slash s'
  end.

(** An upstream that never stops paginating: from every environment and URL
    in [P] it serves a well-formed page whose [next] is again in [P]. *)
Definition endless {Env : Type} `{Environment Env} (timeout : Z)
    (P : Env → pyobj → Prop) : Prop :=
  ∀ e url, P e url →
    truthy url = true ∧
    ∃ resp e1 results next,
      http_get e url timeout = (HttpResp resp, e1) ∧ page_of resp results next ∧ P e1 next.

(** The settings with every [COURSE_CATALOG_CACHE_*] attribute removed. *)
Definition only_root (s : Settings) : Settings := {|
  LMS_ROOT_URL := LMS_ROOT_URL s;
  COURSE_CATALOG_CACHE_CACHE_KEY := None;
  COURSE_CATALOG_CACHE_STALE_KEY := None;
  COURSE_CATALOG_CACHE_LOCK_KEY := None;
  COURSE_CATALOG_CACHE_CACHE_TTL_SECONDS := None;
  COURSE_CATALOG_CACHE_STALE_TTL_SECONDS := None;
  COURSE_CATALOG_CACHE_LOCK_TTL_SECONDS := None;
  COURSE_CATALOG_CACHE_REQUEST_TIMEOUT_SECONDS := None;
  COURSE_CATALOG_CACHE_PAGE_SIZE := None;
  COURSE_CATALOG_CACHE_API_PATH := None
|}.

(** An upstream whose only page names itself as the next one. *)
Definition self_loop : list (string * http_outcome) :=
  [ (page1_url, ok_page (PList [course "a"]) (PStr page1_url)) ].

(** Every [delete] in the trace is of the lock [lock] and by the worker that
    holds it at that point. *)
Fixpoint released_by_holder (lock : string) (held : list nat)
    (tr : list (nat * Event * Answer)) : Prop :=
  match tr with
  | [] => True
  | (i, ev, a) :: tr' =>
      match ev with
      | EvDelete key => key = lock ∧ held = [i]
      | _ => True
      end ∧
      released_by_holder lock (holders lock held [(i, ev, a)]) tr'
  end.

(** An upstream that serves the first page and cannot be reached for the
    second. *)
Definition half_upstream : list (string * http_outcome) :=
  [ (page1_url, ok_page (PList [course "a"; course "b"]) (PStr page2_url)) ].

(** A first page whose body is a JSON array. *)
Definition array_page : HttpResponse :=
  {| status_code := 200; text := "[]"; resp_json := inr (PList []) |}.

(** A first page without a [pagination] field. *)
Definition single_page : HttpResponse :=
  {| status_code := 200; text := "";
     resp_json := inr (PDict [("results", PList [course "a"])]) |}.

(** A first page whose [pagination] is a string. *)
Definition string_pagination_page : HttpResponse :=
  {| status_code := 200; text := "";
     resp_json := inr (PDict [("results", PList [course "a"]);
                             ("pagination", PStr "page=2")]) |}.

(** A store whose fresh entry is an empty catalog. *)
Definition empty_catalog : World Scripted :=
  scripted_world 1000 three_pages {[ "upvx:courses_all:v1" := (PList [], 1900) ]}.

(** A store in which another worker's lock is live. *)
Definition locked : World Scripted :=
  scripted_world 1000 three_pages {[ "upvx:courses_all:lock:v1" := (PStr "1", 1010) ]}.

(** A store in which a lock has been left behind and has expired. *)
Definition abandoned_lock : World Scripted :=
  scripted_world 1000 three_pages {[ "upvx:courses_all:lock:v1" := (PStr "1", 990) ]}.

(** The store left by a refresh of the cold store, seen at time 2000 when
    the upstream cannot be reached. *)
Definition after_refresh : World Scripted :=
  {| store := store (run (CatalogCache.courses_all 10 no_settings lms_request) cold).1.2;
     env := {| s_now := 2000; s_latency := 1; s_routes := [] |} |}.

(** Settings with a site root that ends in slashes, and with one that is
    nothing but slashes. *)
Definition rooted_settings : Settings := {|
  LMS_ROOT_URL := Some "https://lms.example.org//";
  COURSE_CATALOG_CACHE_CACHE_KEY := None;
  COURSE_CATALOG_CACHE_STALE_KEY := None;
  COURSE_CATALOG_CACHE_LOCK_KEY := None;
  COURSE_CATALOG_CACHE_CACHE_TTL_SECONDS := None;
  COURSE_CATALOG_CACHE_STALE_TTL_SECONDS := None;
  COURSE_CATALOG_CACHE_LOCK_TTL_SECONDS := None;
  COURSE_CATALOG_CACHE_REQUEST_TIMEOUT_SECONDS := None;
  COURSE_CATALOG_CACHE_PAGE_SIZE := None;
  COURSE_CATALOG_CACHE_API_PATH := None
|}.

Definition slash_settings : Settings := {|
  LMS_ROOT_URL := Some "//";
  COURSE_CATALOG_CACHE_CACHE_KEY := None;
  COURSE_CATALOG_CACHE_STALE_KEY := None;
  COURSE_CATALOG_CACHE_LOCK_KEY := None;
  COURSE_CATALOG_CACHE_CACHE_TTL_SECONDS := None;
  COURSE_CATALOG_CACHE_STALE_TTL_SECONDS := None;
  COURSE_CATALOG_CACHE_LOCK_TTL_SECONDS := None;
  COURSE_CATALOG_CACHE_REQUEST_TIMEOUT_SECONDS := None;
  COURSE_CATALOG_CACHE_PAGE_SIZE := None;
  COURSE_CATALOG_CACHE_API_PATH := None
|}.

Definition plain_request : HttpRequest := {| is_secure := false; get_host := "localhost:8000" |}.

(** The self-referring upstream asked at its only URL. *)
Definition on_self_loop (e : Scripted) (url : pyobj) : Prop :=
  url = PStr page1_url ∧ s_routes e = self_loop.

(** The cache key an operation names, if any. *)
Definition event_key (ev : Event) : option string :=
  match ev with
  | EvGet key | EvAdd key _ _ | EvSet key _ _ | EvDelete key => Some key
  | EvHttp _ _ | EvNow => None
  end.

(** * Properties *)

(** ** Running composed programs *)

Section RunLemmas.
Context {Env : Type} `{Environment Env}.

Lemma run_bind {A B : Type} (p : Prog A) (f : A → Prog B) (w : World Env) :
  run (bind p f) w =
  match run p w with
  | (Returned a, w1, tr1) =>
      let '(o, w2, tr2) := run (f a) w1 in (o, w2, (tr1 ++ tr2)%list)
  | (Raised e, w1, tr1) => (Raised e, w1, tr1)
  | (Looping, w1, tr1) => (Looping, w1, tr1)
  end.
Proof.
  revert w. induction p as [a|e| |key k IH|key v t k IH|key v t k IH|key k IH|url t k IH|k IH];
    intros w; simpl.
  - by destruct (run (f a) w) as [[o w2] tr2].
  - done.
  - done.
  - rewrite IH. by destruct (run (k _) w) as [[[a|e|] w1] tr1]; [destruct (run (f a) w1) as [[? ?] ?]|..].
  - destruct (store_add w key v t) as [b w1]. rewrite IH.
    by destruct (run (k b) w1) as [[[a|e|] w2] tr1]; [destruct (run (f a) w2) as [[? ?] ?]|..].
  - rewrite IH.
    by destruct (run (k ()) _) as [[[a|e|] w2] tr1]; [destruct (run (f a) w2) as [[? ?] ?]|..].
  - rewrite IH.
    by destruct (run (k ()) _) as [[[a|e|] w2] tr1]; [destruct (run (f a) w2) as [[? ?] ?]|..].
  - destruct (http_get (env w) url t) as [r e']. rewrite IH.
    by destruct (run (k r) _) as [[[a|e|] w2] tr1]; [destruct (run (f a) w2) as [[? ?] ?]|..].
  - rewrite IH.
    by destruct (run (k _) w) as [[[a|e|] w1] tr1]; [destruct (run (f a) w1) as [[? ?] ?]|..].
Qed.

Lemma run_try_except {A : Type} (p : Prog A) (h : exn → Prog A) (w : World Env) :
  run (try_except p h) w =
  match run p w with
  | (Raised e, w1, tr1) =>
      let '(o, w2, tr2) := run (h e) w1 in (o, w2, (tr1 ++ tr2)%list)
  | r => r
  end.
Proof.
  revert w. induction p as [a|e| |key k IH|key v t k IH|key v t k IH|key k IH|url t k IH|k IH];
    intros w; simpl.
  - done.
  - by destruct (run (h e) w) as [[o w2] tr2].
  - done.
  - rewrite IH. by destruct (run (k _) w) as [[[a|e|] w1] tr1]; [|destruct (run (h e) w1) as [[? ?] ?]|].
  - destruct (store_add w key v t) as [b w1]. rewrite IH.
    by destruct (run (k b) w1) as [[[a|e|] w2] tr1]; [|destruct (run (h e) w2) as [[? ?] ?]|].
  - rewrite IH.
    by destruct (run (k ()) _) as [[[a|e|] w2] tr1]; [|destruct (run (h e) w2) as [[? ?] ?]|].
  - rewrite IH.
    by destruct (run (k ()) _) as [[[a|e|] w2] tr1]; [|destruct (run (h e) w2) as [[? ?] ?]|].
  - destruct (http_get (env w) url t) as [r e']. rewrite IH.
    by destruct (run (k r) _) as [[[a|e|] w2] tr1]; [|destruct (run (h e) w2) as [[? ?] ?]|].
  - rewrite IH.
    by destruct (run (k _) w) as [[[a|e|] w1] tr1]; [|destruct (run (h e) w1) as [[? ?] ?]|].
Qed.

(** The [finally] clause of the views is [cache.delete(lock_key)]. *)
Lemma run_try_finally_delete {A : Type} (p : Prog A) (key : string) (w : World Env) :
  run (try_finally p (cache_delete key)) w =
  match run p w with
  | (Looping, w1, tr1) => (Looping, w1, tr1)
  | (o, w1, tr1) => (o, store_delete w1 key, (tr1 ++ [EvDelete key])%list)
  end.
Proof.
  revert w. induction p as [a|e| |k0 k IH|k0 v t k IH|k0 v t k IH|k0 k IH|url t k IH|k IH];
    intros w; simpl; try done.
  - rewrite IH. by destruct (run (k _) w) as [[[a|e|] w1] tr1].
  - destruct (store_add w k0 v t) as [b w1]. rewrite IH.
    by destruct (run (k b) w1) as [[[a|e|] w2] tr1].
  - rewrite IH. by destruct (run (k ()) _) as [[[a|e|] w2] tr1].
  - rewrite IH. by destruct (run (k ()) _) as [[[a|e|] w2] tr1].
  - destruct (http_get (env w) url t) as [r e']. rewrite IH.
    by destruct (run (k r) _) as [[[a|e|] w2] tr1].
  - rewrite IH. by destruct (run (k _) w) as [[[a|e|] w1] tr1].
Qed.

Lemma run_lift {A : Type} (r : exn + A) (w : World Env) :
  run (lift r) w = (match r with inl e => Raised e | inr a => Returned a end, w, []).
Proof. by destruct r. Qed.

Lemma run_peq {A : Type} (p q : Prog A) (w : World Env) :
  peq p q → run p w = run q w.
Proof.
  intros Hpq. revert w. induction Hpq as [| | |key k k' _ IH|key v t k k' _ IH|key v t k k' _ IH
    |key k k' _ IH|url t k k' _ IH|k k' _ IH]; intros w; simpl; try done.
  - by rewrite IH.
  - destruct (store_add w key v t) as [b w1]. by rewrite IH.
  - by rewrite IH.
  - by rewrite IH.
  - destruct (http_get (env w) url t) as [r e']. by rewrite IH.
  - by rewrite IH.
Qed.
End RunLemmas.

(** ** The fetch loop *)

Lemma results_or_empty (results : list pyobj) :
  match py_or (PList results) (PList []) with PList l => l | _ => [] end = results.
Proof. by destruct results. Qed.

Lemma pagination_or_empty (pagination : list (string * pyobj)) (key : string) :
  py_get (py_or (PDict pagination) (PDict [])) key = inr (default PNone (assoc key pagination)).
Proof. by destruct pagination. Qed.

(** A [results] field that is missing, null or not a list contributes
    nothing. *)
Lemma malformed_results_empty (data : list (string * pyobj)) :
  (∀ l, assoc "results" data ≠ Some (PList l)) →
  match py_or (default PNone (assoc "results" data)) (PList []) with
  | PList l => l
  | _ => []
  end = [].
Proof.
  intros Hno. destruct (assoc "results" data) as [[| | | |l|]|] eqn:E; simpl; try done.
  - unfold py_or. by destruct (truthy _).
  - unfold py_or. by destruct (truthy _).
  - unfold py_or. by destruct (truthy _).
  - by destruct (Hno l).
  - unfold py_or. by destruct (truthy _).
Qed.

Lemma str_prefix_length (n : nat) (s : string) :
  (String.length (str_prefix n s) ≤ n)%nat.
Proof.
  unfold str_prefix. revert s. induction n as [|n IH]; intros [|c s]; simpl; try lia.
  specialize (IH s). lia.
Qed.

Section Fetch.
Context {Env : Type} `{Environment Env}.
Import CatalogCache.


Lemma fetch_loop_falsy fuel s url page acc (w : World Env) :
  truthy url = false →
  run (fetch_loop fuel s url page acc) w = (Returned acc, w, []).
Proof. intros Hu. destruct fuel; simpl; by rewrite Hu. Qed.

(** One iteration on a well-formed page. *)
Lemma fetch_loop_page fuel s url page acc (w : World Env) resp e1 results next :
  truthy url = true →
  http_get (env w) url (cfg_request_timeout s) = (HttpResp resp, e1) →
  page_of resp results next →
  run (fetch_loop (S fuel) s url page acc) w =
    let '(o, w', tr) := run (fetch_loop fuel s next (page + 1) (acc ++ results)%list)
                            {| store := store w; env := e1 |} in
    (o, w', EvHttp url (cfg_request_timeout s) :: tr).
Proof.
  intros Hu Hget (Hst & data & pag & Hjson & Hres & Hpag & Hnext).
  cbn [fetch_loop]. rewrite Hu. cbn [session_get bind run]. rewrite Hget.
  cbn [bind]. rewrite Hst. cbn [Z.eqb negb Pos.eqb]. rewrite Hjson. cbn [lift bind py_get].
  rewrite Hres, Hpag. cbn [default id].
  rewrite results_or_empty, pagination_or_empty, Hnext. done.
Qed.

(** One iteration on a page that is not a 200. *)
Lemma fetch_loop_not_200 fuel s url page acc (w : World Env) resp e1 :
  truthy url = true →
  http_get (env w) url (cfg_request_timeout s) = (HttpResp resp, e1) →
  status_code resp ≠ 200 →
  run (fetch_loop (S fuel) s url page acc) w =
    (Raised (RuntimeError (failure_message page resp)),
     {| store := store w; env := e1 |}, [EvHttp url (cfg_request_timeout s)]).
Proof.
  intros Hu Hget Hst.
  cbn [fetch_loop]. rewrite Hu. cbn [session_get bind run]. rewrite Hget.
  cbn [bind]. destruct (Z.eqb_spec (status_code resp) 200) as [|_]; [done|]. done.
Qed.

(** The loop only talks to the upstream: the store is left as it was. *)
Lemma fetch_loop_store fuel s url page acc (w : World Env) o w' tr :
  run (fetch_loop fuel s url page acc) w = (o, w', tr) →
  store w' = store w ∧ Forall is_http tr.
Proof.
  revert url page acc w o w' tr.
  induction fuel as [|fuel IH]; intros url page acc w o w' tr.
  - simpl. destruct (truthy url); simpl; intros [= <- <- <-]; by split.
  - cbn [fetch_loop]. destruct (truthy url); [|simpl; intros [= <- <- <-]; by split].
    cbn [session_get bind run].
    destruct (http_get (env w) url (cfg_request_timeout s)) as [[resp|e] e1]; cbn [bind run].
    2: { intros [= <- <- <-]. split; [done|]. by repeat constructor. }
    destruct (negb (status_code resp =? 200)); cbn [run].
    { intros [= <- <- <-]. split; [done|]. by repeat constructor. }
    destruct (resp_json resp) as [e|data]; cbn [lift bind run].
    { intros [= <- <- <-]. split; [done|]. by repeat constructor. }
    destruct (py_get data "results") as [e|r]; cbn [lift bind run].
    { intros [= <- <- <-]. split; [done|]. by repeat constructor. }
    destruct (py_get data "pagination") as [e|pg]; cbn [lift bind run].
    { intros [= <- <- <-]. split; [done|]. by repeat constructor. }
    destruct (py_get (py_or pg (PDict [])) "next") as [e|next]; cbn [lift bind run].
    { intros [= <- <- <-]. split; [done|]. by repeat constructor. }
    destruct (run (fetch_loop fuel s next _ _) _) as [[o1 w1] tr1] eqn:E.
    intros [= <- <- <-]. apply IH in E as [E1 E2]. split; [done|]. by constructor.
Qed.

(** The loop follows the pages the upstream serves. *)
Lemma fetch_loop_paging fuel s url page acc (w : World Env) pages e' url' :
  paging (cfg_request_timeout s) (env w) url pages e' url' →
  ∃ tr0, length tr0 = length pages ∧ Forall is_http tr0 ∧
    run (fetch_loop (length pages + fuel) s url page acc) w =
      let '(o, w', tr) :=
        run (fetch_loop fuel s url' (page + Z.of_nat (length pages))
               (acc ++ concat pages)%list) {| store := store w; env := e' |} in
      (o, w', (tr0 ++ tr)%list).
Proof.
  intros Hp. remember (env w) as e eqn:He. revert w page acc He.
  induction Hp as [e url|e url resp e1 results next pages e' url' Hu Hget Hpage _ IH];
    intros w page acc ->.
  - exists []. split_and!; [done|done|]. simpl.
    rewrite Z.add_0_r, app_nil_r. destruct w as [st e]; simpl.
    by destruct (run _ _) as [[? ?] ?].
  - destruct (IH {| store := store w; env := e1 |} (page + 1) (acc ++ results)%list eq_refl)
      as (tr0 & Hlen & Hhttp & Hrun).
    exists (EvHttp url (cfg_request_timeout s) :: tr0). split_and!.
    + simpl. by rewrite Hlen.
    + by constructor.
    + cbn [length Nat.add concat]. rewrite (fetch_loop_page _ _ _ _ _ _ _ _ _ _ Hu Hget Hpage).
      rewrite Hrun. clear Hrun. cbn [store env].
      replace (page + 1 + Z.of_nat (length pages)) with (page + Z.of_nat (S (length pages))) by lia.
      rewrite <- (app_assoc acc results (concat pages)).
      by destruct (run _ _) as [[? ?] ?].
Qed.
End Fetch.

(** ** The view, step by step *)

Section View.
Context {Env : Type} `{Environment Env}.
Import CatalogCache.

Lemma run_json_response (v : pyobj) (source : string) (http_status : Z) (w : World Env) :
  run (_json_response v source http_status) w =
  match py_len v with
  | inl e => (Raised e, w, [])
  | inr n =>
      (Returned {| status := http_status;
                   payload := snapshot_payload v n source (isoformat (clock (env w))) |},
       w, [EvNow])
  end.
Proof. unfold _json_response. by destruct (py_len v). Qed.

Lemma fetch_store fuel s req (w : World Env) o w' tr :
  run (_fetch_all_courses_from_courses_api fuel s req) w = (o, w', tr) →
  store w' = store w ∧ Forall is_http tr.
Proof. apply fetch_loop_store. Qed.

(** The request finds the fresh entry. *)
Lemma run_courses_all_hit fuel s req (w : World Env) v :
  store_get w (cfg_cache_key s) = v → is_not_none v = true →
  run (courses_all fuel s req) w =
  let '(o, w', tr) := run (_json_response v "cache" 200) w in
  (o, w', EvGet (cfg_cache_key s) :: tr).
Proof.
  intros Hv Hsome. unfold courses_all. cbn [cache_get bind run]. rewrite Hv, Hsome. done.
Qed.

(** The request misses the fresh entry and wins the lock: what it does is
    decided by the outcome of the fetch. *)
Lemma run_courses_all_acquired fuel s req (w : World Env) :
  store_get w (cfg_cache_key s) = PNone →
  live (store w) (clock (env w)) (cfg_lock_key s) = None →
  run (courses_all fuel s req) w =
  let pre := [EvGet (cfg_cache_key s); EvAdd (cfg_lock_key s) (PStr "1") (cfg_lock_ttl s)] in
  match run (_fetch_all_courses_from_courses_api fuel s req)
            (store_set w (cfg_lock_key s) (PStr "1") (cfg_lock_ttl s)) with
  | (Returned results, w2, tr) =>
      let w3 := store_set (store_set w2 (cfg_cache_key s) (PList results) (cfg_cache_ttl s))
                          (cfg_stale_key s) (PList results) (cfg_stale_ttl s) in
      (Returned {| status := 200;
                   payload := snapshot_payload (PList results) (Z.of_nat (length results))
                                "fresh" (isoformat (clock (env w2))) |},
       store_delete w3 (cfg_lock_key s),
       pre ++ tr ++ [EvSet (cfg_cache_key s) (PList results) (cfg_cache_ttl s);
                     EvSet (cfg_stale_key s) (PList results) (cfg_stale_ttl s);
                     EvNow; EvDelete (cfg_lock_key s)])%list
  | (Raised exc, w2, tr) =>
      let stale := store_get w2 (cfg_stale_key s) in
      if is_not_none stale then
        match py_len stale with
        | inr n =>
            (Returned {| status := 200;
                         payload := snapshot_payload stale n "stale" (isoformat (clock (env w2))) |},
             store_delete w2 (cfg_lock_key s),
             pre ++ tr ++ [EvGet (cfg_stale_key s); EvNow; EvDelete (cfg_lock_key s)])%list
        | inl e =>
            (Raised e, store_delete w2 (cfg_lock_key s),
             pre ++ tr ++ [EvGet (cfg_stale_key s); EvDelete (cfg_lock_key s)])%list
        end
      else
        (Returned {| status := 502;
                     payload := PDict [("detail", PStr "Could not refresh courses catalog and no stale cache available.");
                                       ("error", PStr (str_exc exc));
                                       ("generated_at", PStr (isoformat (clock (env w2))))] |},
         store_delete w2 (cfg_lock_key s),
         pre ++ tr ++ [EvGet (cfg_stale_key s); EvNow; EvDelete (cfg_lock_key s)])%list
  | (Looping, w2, tr) => (Looping, w2, pre ++ tr)%list
  end.
Proof.
  intros Hmiss Hfree. unfold courses_all. cbn [cache_get bind run]. rewrite Hmiss.
  cbn [is_not_none cache_add bind run]. unfold store_add at 1. rewrite Hfree.
  rewrite run_try_finally_delete, run_try_except, run_bind.
  destruct (run (_fetch_all_courses_from_courses_api fuel s req) _) as [[[results|exc|] w2] tr].
  - cbn [cache_set bind run]. rewrite run_json_response. cbn [py_len store_set env].
    cbn [app]. by rewrite <- !app_assoc.
  - cbn [cache_get bind run].
    destruct (is_not_none (store_get w2 (cfg_stale_key s))) eqn:Hs.
    + rewrite run_json_response. destruct (py_len _); cbn [app]; by rewrite <- ?app_assoc.
    + unfold refresh_failed. cbn [now_iso bind run app]. by rewrite <- ?app_assoc.
  - done.
Qed.
End View.

Section ViewLost.
Context {Env : Type} `{Environment Env}.
Import CatalogCache.

(** The request misses the fresh entry and loses the lock. *)
Lemma run_courses_all_lost fuel s req (w : World Env) held :
  store_get w (cfg_cache_key s) = PNone →
  live (store w) (clock (env w)) (cfg_lock_key s) = Some held →
  run (courses_all fuel s req) w =
  let pre := [EvGet (cfg_cache_key s); EvAdd (cfg_lock_key s) (PStr "1") (cfg_lock_ttl s);
              EvGet (cfg_stale_key s)] in
  let stale := store_get w (cfg_stale_key s) in
  if is_not_none stale then
    match py_len stale with
    | inr n =>
        (Returned {| status := 200;
                     payload := snapshot_payload stale n "stale" (isoformat (clock (env w))) |},
         w, pre ++ [EvNow])%list
    | inl e => (Raised e, w, pre)
    end
  else
    (Returned {| status := 503;
                 payload := PDict [("detail", PStr "Courses catalog is warming up. Please retry.");
                                   ("generated_at", PStr (isoformat (clock (env w))))] |},
     w, pre ++ [EvGet (cfg_cache_key s); EvNow])%list.
Proof.
  intros Hmiss Hheld. unfold courses_all. cbn [cache_get bind run]. rewrite Hmiss.
  cbn [is_not_none cache_add bind run]. unfold store_add. rewrite Hheld.
  cbn [bind run]. destruct (is_not_none (store_get w (cfg_stale_key s))) eqn:Hs.
  - rewrite run_json_response. by destruct (py_len _).
  - cbn [bind run]. rewrite Hmiss. done.
Qed.
End ViewLost.

(** ** The refresh protocol *)

Section Refresh.
Context {Env : Type} `{Environment Env}.
Import CatalogCache.

(** C2. When the request has acquired the lock and the fetch comes to an end,
    whether it returns or raises, the view ends too, the last thing it does
    is [cache.delete(lock_key)], and the lock key is absent from the store
    it leaves behind. *)
Theorem lock_released_on_every_exit fuel s req (w : World Env) fo w2 ftr :
  store_get w (cfg_cache_key s) = PNone →
  live (store w) (clock (env w)) (cfg_lock_key s) = None →
  run (_fetch_all_courses_from_courses_api fuel s req)
      (store_set w (cfg_lock_key s) (PStr "1") (cfg_lock_ttl s)) = (fo, w2, ftr) →
  fo ≠ Looping →
  ∃ o w' tr,
    run (courses_all fuel s req) w = (o, w', (tr ++ [EvDelete (cfg_lock_key s)])%list) ∧
    o ≠ Looping ∧
    store w' !! cfg_lock_key s = None ∧
    store_get w' (cfg_lock_key s) = PNone.
Proof.
  intros Hmiss Hfree Hfetch Hend.
  rewrite (run_courses_all_acquired _ _ _ _ Hmiss Hfree), Hfetch.
  assert (∀ w0 : World Env, store (store_delete w0 (cfg_lock_key s)) !! cfg_lock_key s = None
            ∧ store_get (store_delete w0 (cfg_lock_key s)) (cfg_lock_key s) = PNone) as Hdel.
  { intros w0. unfold store_get, live, store_delete; simpl. by rewrite lookup_delete_eq. }
  set (pre := [EvGet (cfg_cache_key s); EvAdd (cfg_lock_key s) (PStr "1") (cfg_lock_ttl s)]).
  destruct fo as [results|exc|]; [| |done].
  - eexists _, _, (pre ++ ftr ++ [EvSet _ _ _; EvSet _ _ _; EvNow])%list.
    split; [cbv zeta; by rewrite <- !app_assoc | split; [done | apply Hdel]].
  - cbv zeta. destruct (is_not_none _); [destruct (py_len _)|].
    + eexists _, _, (pre ++ ftr ++ [EvGet _])%list.
      split; [by rewrite <- !app_assoc | split; [done | apply Hdel]].
    + eexists _, _, (pre ++ ftr ++ [EvGet _; EvNow])%list.
      split; [by rewrite <- !app_assoc | split; [done | apply Hdel]].
    + eexists _, _, (pre ++ ftr ++ [EvGet _; EvNow])%list.
      split; [by rewrite <- !app_assoc | split; [done | apply Hdel]].
Qed.
(** C4. When the request has acquired the lock and the fetch raises: if the
    stale entry read afterwards holds a snapshot, the answer is that snapshot
    with source ["stale"] and status 200; if it holds nothing, the answer is
    a 502 whose body has exactly the fields [detail], [error] (the message of
    the exception) and [generated_at]. *)
Theorem failed_refresh_falls_back_to_stale fuel s req (w : World Env) exc w2 ftr :
  store_get w (cfg_cache_key s) = PNone →
  live (store w) (clock (env w)) (cfg_lock_key s) = None →
  run (_fetch_all_courses_from_courses_api fuel s req)
      (store_set w (cfg_lock_key s) (PStr "1") (cfg_lock_ttl s)) = (Raised exc, w2, ftr) →
  (∀ snapshot, store_get w2 (cfg_stale_key s) = PList snapshot →
     ∃ w' tr,
       run (courses_all fuel s req) w =
         (Returned {| status := 200;
                      payload := snapshot_payload (PList snapshot) (Z.of_nat (length snapshot))
                                   "stale" (isoformat (clock (env w2))) |}, w', tr)) ∧
  (store_get w2 (cfg_stale_key s) = PNone →
     ∃ w' tr detail,
       run (courses_all fuel s req) w =
         (Returned {| status := 502;
                      payload := PDict [("detail", PStr detail);
                                        ("error", PStr (str_exc exc));
                                        ("generated_at", PStr (isoformat (clock (env w2))))] |},
          w', tr)).
Proof.
  intros Hmiss Hfree Hfetch.
  rewrite (run_courses_all_acquired _ _ _ _ Hmiss Hfree), Hfetch. cbv zeta.
  split.
  - intros snapshot ->. simpl. by eexists _, _.
  - intros ->. simpl. by eexists _, _, _.
Qed.

(** C5. When the request has acquired the lock and the fetch returns
    [results], the view answers [results] with source ["fresh"] and leaves
    [results], unchanged, under the fresh key with the fresh TTL and under
    the stale key with the stale TTL.  Every later request that meets this
    store before the fresh entry expires answers the same [results] with
    source ["cache"], and does nothing but read the fresh key and the clock. *)
Theorem refresh_then_cache_hit fuel s req (w : World Env) results w2 ftr :
  distinct_keys s →
  store_get w (cfg_cache_key s) = PNone →
  live (store w) (clock (env w)) (cfg_lock_key s) = None →
  run (_fetch_all_courses_from_courses_api fuel s req)
      (store_set w (cfg_lock_key s) (PStr "1") (cfg_lock_ttl s)) = (Returned results, w2, ftr) →
  ∃ w' tr,
    run (courses_all fuel s req) w =
      (Returned {| status := 200;
                   payload := snapshot_payload (PList results) (Z.of_nat (length results))
                                "fresh" (isoformat (clock (env w2))) |}, w', tr) ∧
    store w' !! cfg_cache_key s = Some (PList results, clock (env w2) + cfg_cache_ttl s) ∧
    store w' !! cfg_stale_key s = Some (PList results, clock (env w2) + cfg_stale_ttl s) ∧
    ∀ (later : World Env) fuel' req',
      store later = store w' →
      clock (env later) < clock (env w2) + cfg_cache_ttl s →
      run (courses_all fuel' s req') later =
        (Returned {| status := 200;
                     payload := snapshot_payload (PList results) (Z.of_nat (length results))
                                  "cache" (isoformat (clock (env later))) |},
         later, [EvGet (cfg_cache_key s); EvNow]).
Proof.
  intros (Hcs & Hcl & Hsl) Hmiss Hfree Hfetch.
  rewrite (run_courses_all_acquired _ _ _ _ Hmiss Hfree), Hfetch. cbv zeta.
  eexists _, _. split; [reflexivity|].
  assert (store (store_delete
            (store_set (store_set w2 (cfg_cache_key s) (PList results) (cfg_cache_ttl s))
               (cfg_stale_key s) (PList results) (cfg_stale_ttl s)) (cfg_lock_key s))
          !! cfg_cache_key s = Some (PList results, clock (env w2) + cfg_cache_ttl s)) as Hfresh.
  { simpl. rewrite lookup_delete_ne by done. rewrite lookup_insert_ne by done.
    by rewrite lookup_insert_eq. }
  split; [exact Hfresh|]. split.
  - simpl. rewrite lookup_delete_ne by done. by rewrite lookup_insert_eq.
  - intros later fuel' req' Hst Hnow.
    assert (store_get later (cfg_cache_key s) = PList results) as Hget.
    { unfold store_get, live. rewrite Hst, Hfresh.
      by destruct (Z.ltb_spec (clock (env later)) (clock (env w2) + cfg_cache_ttl s)); [|lia]. }
    rewrite (run_courses_all_hit _ _ _ _ _ Hget eq_refl), run_json_response. done.
Qed.

(** C10. Every 200 answer of the view has the body of a snapshot response:
    its [count] is [len] of its [results], and its [source] is one of
    ["cache"], ["fresh"] and ["stale"]. *)
Theorem count_is_len_of_results fuel s req (w : World Env) resp w' tr :
  run (courses_all fuel s req) w = (Returned resp, w', tr) →
  status resp = 200 →
  ∃ results count source generated_at,
    payload resp = snapshot_payload results count source generated_at ∧
    py_len results = inr count ∧
    (source = "cache" ∨ source = "fresh" ∨ source = "stale").
Proof.
  intros Hrun H200.
  destruct (is_not_none (store_get w (cfg_cache_key s))) eqn:Hhit.
  { rewrite (run_courses_all_hit _ _ _ _ _ eq_refl Hhit), run_json_response in Hrun.
    destruct (py_len _) as [e|n] eqn:Hlen; [done|]. injection Hrun as <- <- <-.
    eexists _, _, _, _. split_and!; [reflexivity|exact Hlen|by left]. }
  assert (store_get w (cfg_cache_key s) = PNone) as Hmiss.
  { by destruct (store_get w (cfg_cache_key s)). }
  destruct (live (store w) (clock (env w)) (cfg_lock_key s)) as [held|] eqn:Hlock.
  - rewrite (run_courses_all_lost _ _ _ _ _ Hmiss Hlock) in Hrun. cbv zeta in Hrun.
    destruct (is_not_none _); [destruct (py_len _) as [e|n] eqn:Hlen|].
    + done.
    + injection Hrun as <- <- <-.
      eexists _, _, _, _. split_and!; [reflexivity|exact Hlen|by right; right].
    + injection Hrun as <- <- <-. done.
  - rewrite (run_courses_all_acquired _ _ _ _ Hmiss Hlock) in Hrun. cbv zeta in Hrun.
    destruct (run (_fetch_all_courses_from_courses_api fuel s req) _) as [[[results|exc|] w2] ftr].
    + injection Hrun as <- <- <-.
      eexists _, _, _, _. split_and!; [reflexivity|reflexivity|by right; left].
    + destruct (is_not_none _); [destruct (py_len _) as [e|n] eqn:Hlen|].
      * done.
      * injection Hrun as <- <- <-.
        eexists _, _, _, _. split_and!; [reflexivity|exact Hlen|by right; right].
      * injection Hrun as <- <- <-. done.
    + done.
Qed.
End Refresh.

(** ** The fetcher *)

Section Fetcher.
Context {Env : Type} `{Environment Env}.
Import CatalogCache.


(** C6. When the upstream serves a sequence of pages from the first URL, each
    page's [pagination.next] leading to the following page and the last
    page's [next] being missing or null, the fetcher, given fuel for as many
    iterations as there are pages, returns the pages' [results] concatenated
    in order, after exactly one request per page and nothing else. *)
Theorem fetch_concatenates_pages fuel s req (w : World Env) pages e' :
  paging (cfg_request_timeout s) (env w) (first_url s req) pages e' PNone →
  (length pages ≤ fuel)%nat →
  ∃ tr,
    run (_fetch_all_courses_from_courses_api fuel s req) w =
      (Returned (concat pages), {| store := store w; env := e' |}, tr) ∧
    length tr = length pages ∧
    Forall is_http tr.
Proof.
  intros Hpaging Hfuel.
  replace fuel with (length pages + (fuel - length pages))%nat by lia.
  destruct (fetch_loop_paging (fuel - length pages) s _ 1 [] w pages e' PNone Hpaging)
    as (tr0 & Hlen & Hhttp & Hrun).
  exists tr0. unfold _fetch_all_courses_from_courses_api. fold (first_url s req).
  rewrite Hrun, fetch_loop_falsy by done. simpl. by rewrite app_nil_r.
Qed.

(** C7. When the upstream serves some pages and then answers with a status
    other than 200, the fetcher makes no further request and raises a
    [RuntimeError] whose message carries the number of the failing page, its
    status and at most the first 300 characters of its body.  The view that
    called it (fresh entry missing, lock acquired) then ends without a
    single [cache.set]: every key but the lock key is left as it was. *)
Theorem non_200_page_fails_fetch fuel s req (w : World Env) pages e1 url1 resp e2 :
  store_get w (cfg_cache_key s) = PNone →
  live (store w) (clock (env w)) (cfg_lock_key s) = None →
  paging (cfg_request_timeout s) (env w) (first_url s req) pages e1 url1 →
  truthy url1 = true →
  http_get e1 url1 (cfg_request_timeout s) = (HttpResp resp, e2) →
  status_code resp ≠ 200 →
  (length pages < fuel)%nat →
  let w1 := store_set w (cfg_lock_key s) (PStr "1") (cfg_lock_ttl s) in
  let message :=
    "Courses API failed page=" +:+ pretty (1 + Z.of_nat (length pages)) +:+
    " status=" +:+ pretty (status_code resp) +:+
    " body=" +:+ str_prefix 300 (text resp) in
  (String.length (str_prefix 300 (text resp)) ≤ 300)%nat ∧
  (∃ ftr,
     run (_fetch_all_courses_from_courses_api fuel s req) w1 =
       (Raised (RuntimeError message), {| store := store w1; env := e2 |}, ftr) ∧
     length ftr = S (length pages) ∧ Forall is_http ftr) ∧
  (∃ o w' tr,
     run (courses_all fuel s req) w = (o, w', tr) ∧
     o ≠ Looping ∧
     (∀ key value timeout, EvSet key value timeout ∉ tr) ∧
     (∀ key, key ≠ cfg_lock_key s → store w' !! key = store w !! key)).
Proof.
  intros Hmiss Hfree Hpaging Hurl Hget Hstatus Hfuel w1 message.
  split; [apply str_prefix_length|].
  assert (∃ ftr,
     run (_fetch_all_courses_from_courses_api fuel s req) w1 =
       (Raised (RuntimeError message), {| store := store w1; env := e2 |}, ftr) ∧
     length ftr = S (length pages) ∧ Forall is_http ftr) as (ftr & Hfetch & Hlen & Hhttp).
  { replace fuel with (length pages + S (fuel - S (length pages)))%nat by lia.
    destruct (fetch_loop_paging (S (fuel - S (length pages))) s (first_url s req) 1 [] w1
                pages e1 url1 Hpaging) as (tr0 & Hlen & Hhttp & Hrun).
    exists (tr0 ++ [EvHttp url1 (cfg_request_timeout s)])%list.
    unfold _fetch_all_courses_from_courses_api. fold (first_url s req). rewrite Hrun.
    rewrite (fetch_loop_not_200 _ s url1 _ _ {| store := store w1; env := e1 |} resp e2 Hurl Hget Hstatus).
    split_and!; [done| |].
    - rewrite length_app. simpl. lia.
    - apply Forall_app. split; [done|]. by repeat constructor. }
  split; [by exists ftr|].
  rewrite (run_courses_all_acquired _ _ _ _ Hmiss Hfree). fold w1. rewrite Hfetch. cbv zeta.
  assert (∀ (tl : list Event) key value timeout,
            Forall (λ ev, ∀ k v t, ev ≠ EvSet k v t) tl →
            EvSet key value timeout ∉
              ([EvGet (cfg_cache_key s); EvAdd (cfg_lock_key s) (PStr "1") (cfg_lock_ttl s)]
                 ++ ftr ++ tl)%list) as Hnoset.
  { intros tl key value timeout Htl Hin.
    rewrite !elem_of_app in Hin. destruct Hin as [Hin|[Hin|Hin]].
    - rewrite !elem_of_cons in Hin. destruct Hin as [|[|Hin]]; [done|done|].
      by apply elem_of_nil in Hin.
    - rewrite Forall_forall in Hhttp. by apply Hhttp in Hin.
    - rewrite Forall_forall in Htl. exact (Htl _ Hin _ _ _ eq_refl). }
  assert (∀ key, key ≠ cfg_lock_key s →
            store (store_delete {| store := store w1; env := e2 |} (cfg_lock_key s)) !! key
            = store w !! key) as Hkeys.
  { intros key Hne. simpl. rewrite lookup_delete_ne by done. by rewrite lookup_insert_ne. }
  destruct (is_not_none _); [destruct (py_len _)|];
    (eexists _, _, _; split; [reflexivity|]; split; [done|]; split; [|exact Hkeys]);
    intros key value timeout; apply Hnoset; by repeat constructor.
Qed.

(** C8. A 200 page whose body is an object in which [results] is missing or
    is not a list adds nothing to the accumulated results, and the loop goes
    on to read [pagination.next] as on any other page: it raises only if
    that field cannot be read, and otherwise continues from the next URL
    with the page counter advanced and the accumulator unchanged. *)
Theorem malformed_results_contribute_nothing fuel s url page acc (w : World Env) resp e1 data :
  truthy url = true →
  http_get (env w) url (cfg_request_timeout s) = (HttpResp resp, e1) →
  status_code resp = 200 →
  resp_json resp = inr (PDict data) →
  (∀ l, assoc "results" data ≠ Some (PList l)) →
  run (fetch_loop (S fuel) s url page acc) w =
  match py_get (py_or (default PNone (assoc "pagination" data)) (PDict [])) "next" with
  | inl e =>
      (Raised e, {| store := store w; env := e1 |}, [EvHttp url (cfg_request_timeout s)])
  | inr next =>
      let '(o, w', tr) := run (fetch_loop fuel s next (page + 1) acc)
                              {| store := store w; env := e1 |} in
      (o, w', EvHttp url (cfg_request_timeout s) :: tr)
  end.
Proof.
  intros Hu Hget Hst Hjson Hbad.
  cbn [fetch_loop]. rewrite Hu. cbn [session_get bind run]. rewrite Hget.
  cbn [bind]. rewrite Hst. cbn [Z.eqb negb Pos.eqb]. rewrite Hjson. cbn [lift bind py_get].
  rewrite (malformed_results_empty data Hbad), app_nil_r.
  destruct (py_get (py_or (default PNone (assoc "pagination" data)) (PDict [])) "next")
    as [e|next]; cbn [lift bind run]; [done|].
  by destruct (run _ _) as [[? ?] ?].
Qed.
End Fetcher.

(** ** Losing the lock *)

Section Lost.
Import CatalogCache.


(** C3. A request whose first read of the fresh key is answered [None] and
    whose [add] of the lock is answered [False] goes on as follows, whatever
    the other workers do to the store in between.  It reads the stale key;
    answered a snapshot, it responds with it, source ["stale"], status 200.
    Answered [None], it reads the fresh key once more; answered a snapshot,
    it responds with it, source ["cache"]; answered [None] again, it
    responds 503 "warming up".  In no case does it call the upstream. *)
Theorem lock_lost_ladder fuel s req answers o tr :
  replay (courses_all fuel s req) (AObj PNone :: ABool false :: answers) = Some (o, tr) →
  let pre := [EvGet (cfg_cache_key s); EvAdd (cfg_lock_key s) (PStr "1") (cfg_lock_ttl s);
              EvGet (cfg_stale_key s)] in
  (∀ snapshot rest, answers = AObj (PList snapshot) :: rest →
     ∃ generated_at, rest = [AStr generated_at] ∧
       o = Returned {| status := 200;
                       payload := snapshot_payload (PList snapshot)
                                    (Z.of_nat (length snapshot)) "stale" generated_at |} ∧
       tr = (pre ++ [EvNow])%list) ∧
  (∀ snapshot rest, answers = AObj PNone :: AObj (PList snapshot) :: rest →
     ∃ generated_at, rest = [AStr generated_at] ∧
       o = Returned {| status := 200;
                       payload := snapshot_payload (PList snapshot)
                                    (Z.of_nat (length snapshot)) "cache" generated_at |} ∧
       tr = (pre ++ [EvGet (cfg_cache_key s); EvNow])%list) ∧
  (∀ rest, answers = AObj PNone :: AObj PNone :: rest →
     ∃ generated_at, rest = [AStr generated_at] ∧
       o = Returned {| status := 503;
                       payload := PDict [("detail", PStr "Courses catalog is warming up. Please retry.");
                                         ("generated_at", PStr generated_at)] |} ∧
       tr = (pre ++ [EvGet (cfg_cache_key s); EvNow])%list) ∧
  Forall not_http tr.
Proof.
  intros Hreplay pre. unfold courses_all in Hreplay.
  cbn [cache_get bind replay is_not_none cache_add] in Hreplay.
  destruct answers as [|[stale| | | |] rest]; try done.
  cbn [replay bind] in Hreplay.
  split_and!.
  - intros snapshot rest' [= -> ->].
    cbn [is_not_none _json_response py_len lift bind now_iso replay] in Hreplay.
    destruct rest' as [|[| | | |g] [|? ?]]; simplify_eq/=. by exists g.
  - intros snapshot rest' [= -> ->].
    cbn [is_not_none bind replay _json_response py_len lift now_iso] in Hreplay.
    destruct rest' as [|[| | | |g] [|? ?]]; simplify_eq/=. by exists g.
  - intros rest' [= -> ->].
    cbn [is_not_none bind replay warming_up now_iso] in Hreplay.
    destruct rest' as [|[| | | |g] [|? ?]]; simplify_eq/=. by exists g.
  - destruct (is_not_none stale).
    + unfold _json_response in Hreplay. destruct (py_len stale); cbn [lift bind now_iso replay] in Hreplay.
      * destruct rest; simplify_eq/=. by repeat constructor.
      * destruct rest as [|[| | | |g] [|? ?]]; simplify_eq/=. by repeat constructor.
    + cbn [bind replay] in Hreplay. destruct rest as [|[fresh| | | |] rest]; try done.
      cbn [replay] in Hreplay. destruct (is_not_none fresh).
      * unfold _json_response in Hreplay.
        destruct (py_len fresh); cbn [lift bind now_iso replay] in Hreplay.
        -- destruct rest; simplify_eq/=. by repeat constructor.
        -- destruct rest as [|[| | | |g] [|? ?]]; simplify_eq/=. by repeat constructor.
      * unfold warming_up in Hreplay. cbn [bind now_iso replay] in Hreplay.
        destruct rest as [|[| | | |g] [|? ?]]; simplify_eq/=. by repeat constructor.
Qed.
End Lost.

(** ** The two views *)

Lemma peq_refl {A : Type} (p : Prog A) : peq p p.
Proof. induction p; constructor; auto. Qed.

Lemma peq_bind {A B : Type} (p q : Prog A) (f g : A → Prog B) :
  peq p q → (∀ a, peq (f a) (g a)) → peq (bind p f) (bind q g).
Proof. intros Hpq Hfg. induction Hpq; simpl; try constructor; auto. Qed.

Lemma peq_try_except {A : Type} (p q : Prog A) (h h' : exn → Prog A) :
  peq p q → (∀ e, peq (h e) (h' e)) → peq (try_except p h) (try_except q h').
Proof. intros Hpq Hh. induction Hpq; simpl; try constructor; auto. Qed.

Lemma peq_try_finally {A : Type} (p q : Prog A) (fin : Prog unit) :
  peq p q → peq (try_finally p fin) (try_finally q fin).
Proof. intros Hpq. induction Hpq; simpl; try constructor; auto using peq_refl. Qed.

Lemma default_url (s : Settings) (req : HttpRequest) :
  default_settings s →
  CatalogCache._build_internal_url s req (CatalogCache.cfg_api_path s)
    ("?page_size=" +:+ pretty (CatalogCache.cfg_page_size s)) =
  Legacy._build_internal_url s req "/api/courses/v1/courses/?page_size=100".
Proof.
  intros (_ & _ & _ & _ & _ & _ & _ & Hsize & Hpath).
  unfold CatalogCache._build_internal_url, Legacy._build_internal_url,
    CatalogCache.cfg_api_path, CatalogCache.cfg_page_size, CatalogCache._cfg,
    CatalogCache._get_site_root, Legacy._get_site_root.
  rewrite Hsize, Hpath. cbn [default].
  assert (∀ x : string,
    x +:+ CatalogCache.DEFAULTS.API_PATH +:+ "?page_size=" +:+ pretty CatalogCache.DEFAULTS.PAGE_SIZE
    = x +:+ "/api/courses/v1/courses/?page_size=100") as Happ by (intros x; f_equal).
  destruct (negb _); [apply Happ|].
  by do 2 f_equal.
Qed.

Lemma fetch_loop_peq fuel (s : Settings) url page acc :
  default_settings s →
  peq (Legacy.fetch_loop fuel url page acc) (CatalogCache.fetch_loop fuel s url page acc).
Proof.
  intros Hs. revert url page acc. induction fuel as [|fuel IH]; intros url page acc.
  - simpl. destruct (truthy url); constructor.
  - cbn [Legacy.fetch_loop CatalogCache.fetch_loop]. destruct (truthy url); [|constructor].
    assert (CatalogCache.cfg_request_timeout s = Legacy.REQUEST_TIMEOUT_SECONDS) as ->.
    { destruct Hs as (_ & _ & _ & _ & _ & _ & Ht & _).
      unfold CatalogCache.cfg_request_timeout, CatalogCache._cfg. by rewrite Ht. }
    apply peq_bind; [apply peq_refl|]. intros resp.
    destruct (negb _); [apply peq_refl|].
    repeat (apply peq_bind; [apply peq_refl|]; intros ?).
    apply IH.
Qed.

Section Equivalence.
Context {Env : Type} `{Environment Env}.

(** C9. With no [COURSE_CATALOG_CACHE_*] setting in place, the hard-coded
    view and the settings-driven view run alike on every request, every
    store and every upstream: same outcome, same final world, same sequence
    of cache and upstream operations with the same arguments. *)
Theorem legacy_view_equivalent fuel s req (w : World Env) :
  default_settings s →
  run (Legacy.courses_all fuel s req) w = run (CatalogCache.courses_all fuel s req) w.
Proof.
  intros Hs. apply run_peq.
  pose proof Hs as (Hck & Hsk & Hlk & Hct & Hst & Hlt & _).
  unfold Legacy.courses_all, CatalogCache.courses_all,
    CatalogCache.cfg_cache_key, CatalogCache.cfg_stale_key, CatalogCache.cfg_lock_key,
    CatalogCache.cfg_cache_ttl, CatalogCache.cfg_stale_ttl, CatalogCache.cfg_lock_ttl,
    CatalogCache._cfg.
  rewrite Hck, Hsk, Hlk, Hct, Hst, Hlt. cbn [default].
  apply peq_bind; [apply peq_refl|]. intros cached.
  destruct (CatalogCache.is_not_none cached); [apply peq_refl|].
  apply peq_bind; [apply peq_refl|]. intros [|]; [|apply peq_refl].
  apply peq_try_finally, peq_try_except; [|intros exc; apply peq_refl].
  apply peq_bind; [|intros results; apply peq_refl].
  unfold Legacy._fetch_all_courses_from_courses_api,
    CatalogCache._fetch_all_courses_from_courses_api.
  rewrite (default_url s req Hs). by apply fetch_loop_peq.
Qed.
End Equivalence.

(** ** One refresh at a time *)

Lemma holders_app lock held tr1 tr2 :
  holders lock held (tr1 ++ tr2) = holders lock (holders lock held tr1) tr2.
Proof.
  revert held. induction tr1 as [|[[i ev] a] tr1 IH]; intros held; [done|].
  simpl. destruct ev; try apply IH.
  - destruct a as [|[|]| | |]; try apply IH. destruct (String.eqb _ _); apply IH.
  - destruct (String.eqb _ _); apply IH.
Qed.

Lemma exclusive_app lock held tr1 tr2 :
  (length held ≤ 1)%nat →
  exclusive lock held (tr1 ++ tr2) →
  (length (holders lock held tr1) ≤ 1)%nat ∧ exclusive lock (holders lock held tr1) tr2.
Proof.
  revert held. induction tr1 as [|[[i ev] a] tr1 IH]; intros held Hlen Hex; [done|].
  destruct Hex as (_ & Hlen' & Hex).
  change ((i, ev, a) :: tr1) with ([(i, ev, a)] ++ tr1). rewrite holders_app. by apply IH.
Qed.

Lemma quiet_contender {A : Type} lock (p : Prog A) : quiet p → contender lock p.
Proof. induction p; simpl; auto; done. Qed.

Lemma body_bind {A B : Type} lock (p : Prog A) (f : A → Prog B) :
  body lock p → (∀ a, body lock (f a)) → body lock (bind p f).
Proof. induction p; simpl; try done; auto. intros [? ?] ?. auto. Qed.

Lemma body_try_except {A : Type} lock (p : Prog A) (h : exn → Prog A) :
  body lock p → (∀ e, body lock (h e)) → body lock (try_except p h).
Proof. induction p; simpl; try done; auto. intros [? ?] ?. auto. Qed.

Lemma critical_try_finally {A : Type} lock (p : Prog A) :
  body lock p → critical lock (try_finally p (cache_delete lock)).
Proof. induction p; simpl; try done; auto. intros [? ?]. auto. Qed.

Lemma body_lift {A : Type} lock (r : exn + A) : body lock (lift r).
Proof. by destruct r. Qed.

Lemma body_json_response lock v source http_status :
  body lock (CatalogCache._json_response v source http_status).
Proof. unfold CatalogCache._json_response. by destruct (py_len v). Qed.

Lemma quiet_json_response v source http_status :
  quiet (CatalogCache._json_response v source http_status).
Proof. unfold CatalogCache._json_response. by destruct (py_len v). Qed.

Lemma body_fetch_loop lock fuel s url page acc :
  body lock (CatalogCache.fetch_loop fuel s url page acc).
Proof.
  revert url page acc. induction fuel as [|fuel IH]; intros url page acc.
  - simpl. by destruct (truthy url).
  - cbn [CatalogCache.fetch_loop]. destruct (truthy url); [|done].
    cbn [session_get bind body]. intros [resp|e]; [|done]. cbn [bind].
    destruct (negb _); [done|].
    repeat (apply body_bind; [apply body_lift|]; intros ?).
    apply IH.
Qed.

Lemma contender_courses_all fuel s req :
  CatalogCache.cfg_cache_key s ≠ CatalogCache.cfg_lock_key s →
  CatalogCache.cfg_stale_key s ≠ CatalogCache.cfg_lock_key s →
  contender (CatalogCache.cfg_lock_key s) (CatalogCache.courses_all fuel s req).
Proof.
  intros Hc Hs. unfold CatalogCache.courses_all. cbn [cache_get bind contender].
  intros cached. destruct (CatalogCache.is_not_none cached).
  { apply quiet_contender, quiet_json_response. }
  cbn [cache_add bind contender]. split_and!; [done| |].
  - apply critical_try_finally, body_try_except.
    + apply body_bind; [apply body_fetch_loop|]. intros results.
      cbn [cache_set bind body]. split; [done|]. intros _. split; [done|]. intros _.
      apply body_json_response.
    + intros exc. cbn [cache_get bind body]. intros stale.
      destruct (CatalogCache.is_not_none stale); [apply body_json_response|done].
  - cbn [cache_get bind quiet]. intros stale.
    destruct (CatalogCache.is_not_none stale); [apply quiet_json_response|].
    cbn [bind quiet]. intros cached2.
    destruct (CatalogCache.is_not_none cached2); [apply quiet_json_response|done].
Qed.

Section Exclusion.
Context {Env : Type} `{Environment Env}.


Lemma pool_step_inv {A : Type} lock (pl : Pool A) held m pl' tr :
  pool_inv lock pl held →
  unexpired lock (shared pl) →
  pool_step pl m = (pl', tr) →
  pool_inv lock pl' (holders lock held tr) ∧ exclusive lock held tr.
Proof.
  intros [Hheld Hshape] Hlive Hstep. destruct m as [i|e]; simpl in Hstep.
  2: { injection Hstep as <- <-. by split. }
  destruct (workers pl !! i) as [p|] eqn:Hp; [|injection Hstep as <- <-; by split].
  pose proof (Hshape i p Hp) as Hrole.
  assert (∀ p' : Prog A, ∀ held' (w' : World Env),
            (held' = [] ∨ ∃ j, held' = [j] ∧ is_Some (store w' !! lock)) →
            (if decide (i ∈ held') then critical lock p' else contender lock p') →
            (∀ j q, j ≠ i → workers pl !! j = Some q →
               if decide (j ∈ held') then critical lock q else contender lock q) →
            pool_inv lock {| shared := w'; workers := <[i := p']> (workers pl) |} held') as Hnew.
  { intros p' held' w' Hh Hi Hothers. split; [done|]. simpl. intros j q Hq.
    apply list_lookup_insert_Some in Hq as [(-> & -> & _)|[Hne Hq]]; [done|by apply Hothers]. }
  assert (∀ j q, j ≠ i → workers pl !! j = Some q →
            if decide (j ∈ held) then critical lock q else contender lock q) as Hsame.
  { intros j q _. apply Hshape. }
  assert (i ∈ held → held = [i]) as Hme.
  { intros Hin. destruct Hheld as [->|(j & -> & _)]; [by apply elem_of_nil in Hin|].
    apply list_elem_of_singleton in Hin. by subst. }
  destruct p as [a|e| |key k|key v t k|key v t k|key k|url t k|k]; simpl in Hstep;
    try (injection Hstep as <- <-; by split).
  - (* get *)
    injection Hstep as <- <-. split; [|simpl; repeat split; destruct Hheld as [->|(? & -> & _)]; simpl; lia].
    simpl. destruct pl as [w ws]; simpl in *. apply Hnew; [done| |done].
    destruct (decide (i ∈ held)); apply Hrole.
  - (* add *)
    destruct (decide (i ∈ held)) as [Hin|Hout]; [done|]. destruct Hrole as (-> & Hcrit & Hquiet).
    unfold store_add in Hstep.
    destruct (live (store (shared pl)) (clock (env (shared pl))) lock) as [v0|] eqn:Hl.
    + injection Hstep as <- <-. split.
      * simpl. destruct pl as [w ws]; simpl in *. apply Hnew; [done| |done].
        destruct (decide (i ∈ held)); [done|]. by apply quiet_contender.
      * simpl. split_and!; [done|done| |done].
        destruct Hheld as [->|(? & -> & _)]; simpl; lia.
    + injection Hstep as <- <-.
      assert (store (shared pl) !! lock = None) as Hnone.
      { destruct (store (shared pl) !! lock) as [[v0 ex]|] eqn:E; [|done].
        unfold live in Hl. rewrite E in Hl. specialize (Hlive v0 ex E).
        by destruct (Z.ltb_spec (clock (env (shared pl))) ex); [|lia]. }
      assert (held = []) as ->.
      { destruct Hheld as [->|(j & -> & Hsome)]; [done|]. rewrite Hnone in Hsome.
        by destruct Hsome. }
      simpl. rewrite String.eqb_refl. split; [|simpl; repeat split; try done; lia].
      apply Hnew.
      * right. exists i. split; [done|]. simpl. rewrite lookup_insert_eq. by eexists.
      * rewrite decide_True by apply list_elem_of_here; done.
      * intros j q Hne Hq. rewrite decide_False by (by rewrite list_elem_of_singleton).
        specialize (Hshape j q Hq). by rewrite decide_False in Hshape by apply not_elem_of_nil.
  - (* set *)
    destruct (decide (i ∈ held)) as [Hin|Hout]; [|done]. destruct Hrole as (Hne & Hcrit).
    injection Hstep as <- <-. rewrite (Hme Hin) in *. simpl. split; [|simpl; repeat split; try done; lia].
    apply Hnew; [|by rewrite decide_True by apply list_elem_of_here|done].
    right. exists i. split; [done|]. simpl. rewrite lookup_insert_ne by done.
    by destruct Hheld as [?|(? & _ & ?)].
  - (* delete *)
    destruct (decide (i ∈ held)) as [Hin|Hout]; [|done]. destruct Hrole as (-> & Hquiet).
    injection Hstep as <- <-. rewrite (Hme Hin) in *. simpl. rewrite String.eqb_refl.
    rewrite filter_cons_False by (simpl; auto). rewrite filter_nil. split; [|simpl; repeat split; try done; lia].
    apply Hnew; [by left| |].
    + rewrite decide_False by apply not_elem_of_nil. by apply quiet_contender.
    + intros j q Hne Hq. rewrite decide_False by apply not_elem_of_nil.
      specialize (Hshape j q Hq).
      by rewrite decide_False in Hshape by (by rewrite list_elem_of_singleton).
  - (* upstream call *)
    destruct (decide (i ∈ held)) as [Hin|Hout]; [|done].
    destruct (http_get (env (shared pl)) url t) as [r e'] eqn:Hget.
    injection Hstep as <- <-. rewrite (Hme Hin) in *. simpl. split; [|simpl; repeat split; try done; lia].
    apply Hnew; [|by rewrite decide_True by apply list_elem_of_here|done].
    right. exists i. split; [done|]. simpl. by destruct Hheld as [?|(? & _ & ?)].
  - (* clock *)
    injection Hstep as <- <-. split; [|simpl; repeat split; destruct Hheld as [->|(? & -> & _)]; simpl; lia].
    simpl. destruct pl as [w ws]; simpl in *. apply Hnew; [done| |done].
    destruct (decide (i ∈ held)); apply Hrole.
Qed.

Lemma pool_run_exclusive {A : Type} lock (pl : Pool A) held ms :
  pool_inv lock pl held →
  in_window lock pl ms →
  exclusive lock held (snd (pool_run pl ms)).
Proof.
  revert pl held. induction ms as [|m ms IH]; intros pl held Hinv Hwin; [done|].
  destruct Hwin as [Hlive Hwin]. simpl.
  destruct (pool_step pl m) as [pl1 tr1] eqn:Hstep.
  destruct (pool_step_inv _ _ _ _ _ _ Hinv Hlive Hstep) as [Hinv1 Hex1].
  specialize (IH pl1 _ Hinv1 Hwin).
  destruct (pool_run pl1 ms) as [pl2 tr2]. simpl in *.
  destruct m as [i|e]; simpl in Hstep.
  - destruct (workers pl !! i) as [p|]; [|by injection Hstep as <- <-].
    destruct (head_step p (shared pl)) as [[[[ev a] p'] w']|]; injection Hstep as <- <-; [|done].
    simpl. destruct Hex1 as (Hev & Hlen & _). done.
  - by injection Hstep as <- <-.
Qed.

(** C1. Workers run the view concurrently, in any interleaving of their
    cache and upstream operations, on a store they share, in a window in
    which the lock entry does not expire.  Then at every point at most one
    worker holds the lock; an [add] succeeds only on the lock key and only
    while no worker holds it; every upstream request is made by the worker
    that holds the lock at that point; and no [set] writes the lock key. *)
Theorem one_refresh_at_a_time s (requests : list (nat * HttpRequest)) (w : World Env) ms :
  distinct_keys s →
  let lock := CatalogCache.cfg_lock_key s in
  let pl := {| shared := w;
               workers := (λ r, CatalogCache.courses_all r.1 s r.2) <$> requests |} in
  in_window lock pl ms →
  let tr := snd (pool_run pl ms) in
  (∀ tr1 tr2, tr = tr1 ++ tr2 → (length (holders lock [] tr1) ≤ 1)%nat) ∧
  (∀ tr1 i key value timeout tr2,
     tr = tr1 ++ (i, EvAdd key value timeout, ABool true) :: tr2 →
     key = lock ∧ holders lock [] tr1 = []) ∧
  (∀ tr1 i url timeout a tr2,
     tr = tr1 ++ (i, EvHttp url timeout, a) :: tr2 → holders lock [] tr1 = [i]) ∧
  (∀ tr1 i key value timeout a tr2,
     tr = tr1 ++ (i, EvSet key value timeout, a) :: tr2 → key ≠ lock).
Proof.
  intros (Hcs & Hcl & Hsl) lock pl Hwin tr.
  assert (pool_inv lock pl []) as Hinv.
  { split; [by left|]. intros i p Hp. rewrite decide_False by apply not_elem_of_nil.
    unfold pl in Hp. simpl in Hp. apply list_lookup_fmap_Some in Hp as ([fuel req] & -> & _).
    by apply contender_courses_all. }
  pose proof (pool_run_exclusive lock pl [] ms Hinv Hwin) as Hex. fold tr in Hex.
  assert (∀ tr1 tr2, tr = tr1 ++ tr2 →
            (length (holders lock [] tr1) ≤ 1)%nat ∧ exclusive lock (holders lock [] tr1) tr2)
    as Hsplit.
  { intros tr1 tr2 Heq. rewrite Heq in Hex. apply exclusive_app; [simpl; lia|done]. }
  split_and!.
  - intros tr1 tr2 Heq. by destruct (Hsplit _ _ Heq).
  - intros tr1 i key value timeout tr2 Heq. destruct (Hsplit _ _ Heq) as (_ & (Hk & Hh) & _).
    split; [done|]. by apply Hh.
  - intros tr1 i url timeout a tr2 Heq. by destruct (Hsplit _ _ Heq) as (_ & Hh & _).
  - intros tr1 i key value timeout a tr2 Heq. by destruct (Hsplit _ _ Heq) as (_ & Hh & _).
Qed.
End Exclusion.

(** ** The theorems at work on concrete inputs *)

Lemma lock_released_on_every_exit_witness :
  store_get cold "upvx:courses_all:v1" = PNone ∧
  ∃ o w' tr,
    run (CatalogCache.courses_all 10 no_settings lms_request) cold =
      (o, w', tr ++ [EvDelete "upvx:courses_all:lock:v1"]) ∧
    o ≠ Looping ∧
    store w' !! "upvx:courses_all:lock:v1" = None ∧
    store_get w' "upvx:courses_all:lock:v1" = PNone.
Proof.
  split; [vm_compute; reflexivity|].
  eapply (lock_released_on_every_exit 10 no_settings lms_request cold).
  - vm_compute; reflexivity.
  - vm_compute; reflexivity.
  - vm_compute; reflexivity.
  - discriminate.
Defined.

Lemma failed_refresh_falls_back_to_stale_witness :
  ∃ w' tr,
    run (CatalogCache.courses_all 10 no_settings lms_request) stale_only =
      (Returned {| status := 200;
                   payload := snapshot_payload (PList [course "old"]) 1 "stale" "1001" |},
       w', tr).
Proof.
  destruct (failed_refresh_falls_back_to_stale 10 no_settings lms_request stale_only
              (RequestException "connection refused")
              (scripted_world 1001 []
                 (<["upvx:courses_all:lock:v1" := (PStr "1", 1020)]> (store stale_only)))
              [EvHttp (PStr page1_url) 8]) as [Hstale _].
  - vm_compute; reflexivity.
  - vm_compute; reflexivity.
  - vm_compute; reflexivity.
  - apply (Hstale [course "old"]). vm_compute; reflexivity.
Defined.

Lemma refresh_then_cache_hit_witness :
  ∃ w' tr,
    run (CatalogCache.courses_all 10 no_settings lms_request) cold =
      (Returned {| status := 200;
                   payload := snapshot_payload
                                (PList [course "a"; course "b"; course "c"; course "d"; course "e"])
                                5 "fresh" "1003" |}, w', tr) ∧
    store w' !! "upvx:courses_all:v1" =
      Some (PList [course "a"; course "b"; course "c"; course "d"; course "e"], 1903) ∧
    store w' !! "upvx:courses_all:stale:v1" =
      Some (PList [course "a"; course "b"; course "c"; course "d"; course "e"], 87403) ∧
    ∀ (later : World Scripted) fuel' req',
      store later = store w' →
      clock (env later) < 1903 →
      run (CatalogCache.courses_all fuel' no_settings req') later =
        (Returned {| status := 200;
                     payload := snapshot_payload
                                  (PList [course "a"; course "b"; course "c"; course "d"; course "e"])
                                  5 "cache" (isoformat (clock (env later))) |},
         later, [EvGet "upvx:courses_all:v1"; EvNow]).
Proof.
  refine (refresh_then_cache_hit 10 no_settings lms_request cold
            [course "a"; course "b"; course "c"; course "d"; course "e"]
            (scripted_world 1003 three_pages
               (<["upvx:courses_all:lock:v1" := (PStr "1", 1020)]> ∅))
            [EvHttp (PStr page1_url) 8; EvHttp (PStr page2_url) 8; EvHttp (PStr page3_url) 8]
            _ _ _ _).
  - repeat split; discriminate.
  - vm_compute; reflexivity.
  - vm_compute; reflexivity.
  - vm_compute; reflexivity.
Defined.

Lemma count_is_len_of_results_witness :
  ∃ results count source generated_at,
    snapshot_payload (PList [course "old"]) 1 "stale" "1001" =
      snapshot_payload results count source generated_at ∧
    py_len results = inr count ∧
    (source = "cache" ∨ source = "fresh" ∨ source = "stale").
Proof.
  eapply (count_is_len_of_results 10 no_settings lms_request stale_only
            {| status := 200;
               payload := snapshot_payload (PList [course "old"]) 1 "stale" "1001" |}).
  - vm_compute; reflexivity.
  - reflexivity.
Defined.

Lemma three_pages_paging :
  paging 8 (env cold) (first_url no_settings lms_request)
    [[course "a"; course "b"]; [course "c"]; [course "d"; course "e"]]
    {| s_now := 1003; s_latency := 1; s_routes := three_pages |} PNone.
Proof.
  repeat (eapply paging_cons;
          [ reflexivity
          | vm_compute; reflexivity
          | split; [reflexivity | eexists _, _; split_and!; reflexivity]
          | ]).
  apply paging_nil.
Defined.

Lemma fetch_concatenates_pages_witness :
  ∃ tr,
    run (CatalogCache._fetch_all_courses_from_courses_api 3 no_settings lms_request) cold =
      (Returned [course "a"; course "b"; course "c"; course "d"; course "e"],
       {| store := store cold;
          env := {| s_now := 1003; s_latency := 1; s_routes := three_pages |} |}, tr) ∧
    length tr = 3%nat ∧
    Forall is_http tr.
Proof.
  apply (fetch_concatenates_pages 3 no_settings lms_request cold
           [[course "a"; course "b"]; [course "c"]; [course "d"; course "e"]]).
  - exact three_pages_paging.
  - simpl; lia.
Defined.

Lemma non_200_page_fails_fetch_witness :
  let w1 := store_set cold_broken "upvx:courses_all:lock:v1" (PStr "1") 20 in
  (String.length (str_prefix 300 "Internal Server Error") ≤ 300)%nat ∧
  (∃ ftr,
     run (CatalogCache._fetch_all_courses_from_courses_api 5 no_settings lms_request) w1 =
       (Raised (RuntimeError
                  "Courses API failed page=2 status=500 body=Internal Server Error"),
        {| store := store w1;
           env := {| s_now := 1002; s_latency := 1; s_routes := broken_upstream |} |}, ftr) ∧
     length ftr = 2%nat ∧ Forall is_http ftr) ∧
  (∃ o w' tr,
     run (CatalogCache.courses_all 5 no_settings lms_request) cold_broken = (o, w', tr) ∧
     o ≠ Looping ∧
     (∀ key value timeout, EvSet key value timeout ∉ tr) ∧
     (∀ key, key ≠ "upvx:courses_all:lock:v1" →
        store w' !! key = store cold_broken !! key)).
Proof.
  refine (non_200_page_fails_fetch 5 no_settings lms_request cold_broken
            [[course "a"; course "b"]]
            {| s_now := 1001; s_latency := 1; s_routes := broken_upstream |}
            (PStr page2_url) broken_page
            {| s_now := 1002; s_latency := 1; s_routes := broken_upstream |}
            _ _ _ _ _ _ _).
  - vm_compute; reflexivity.
  - vm_compute; reflexivity.
  - eapply paging_cons;
      [ reflexivity
      | vm_compute; reflexivity
      | split; [reflexivity | eexists _, _; split_and!; reflexivity]
      | apply paging_nil ].
  - reflexivity.
  - vm_compute; reflexivity.
  - discriminate.
  - simpl; lia.
Defined.

Lemma malformed_results_contribute_nothing_witness :
  run (CatalogCache.fetch_loop 2 no_settings (PStr page2_url) 2 [course "a"; course "b"])
      (scripted_world 1001 odd_upstream ∅) =
    (Returned [course "a"; course "b"; course "d"; course "e"],
     scripted_world 1003 odd_upstream ∅,
     [EvHttp (PStr page2_url) 8; EvHttp (PStr page3_url) 8]).
Proof.
  rewrite (malformed_results_contribute_nothing 1 no_settings (PStr page2_url) 2
             [course "a"; course "b"] (scripted_world 1001 odd_upstream ∅) odd_page
             {| s_now := 1002; s_latency := 1; s_routes := odd_upstream |}
             [("results", PStr "oops"); ("pagination", PDict [("next", PStr page3_url)])]).
  - vm_compute; reflexivity.
  - reflexivity.
  - vm_compute; reflexivity.
  - reflexivity.
  - reflexivity.
  - intros l. vm_compute. discriminate.
Defined.

Lemma legacy_view_equivalent_witness :
  default_settings no_settings ∧
  run (Legacy.courses_all 10 no_settings lms_request) cold =
  run (CatalogCache.courses_all 10 no_settings lms_request) cold.
Proof.
  assert (default_settings no_settings) as Hd by (repeat split; reflexivity).
  split; [exact Hd|]. exact (legacy_view_equivalent 10 no_settings lms_request cold Hd).
Defined.

Lemma lock_lost_ladder_witness :
  replay (CatalogCache.courses_all 10 no_settings lms_request)
    [AObj PNone; ABool false; AObj PNone; AObj (PList [course "a"]); AStr "now"] =
  Some (Returned {| status := 200;
                    payload := snapshot_payload (PList [course "a"]) 1 "cache" "now" |},
        [EvGet "upvx:courses_all:v1"; EvAdd "upvx:courses_all:lock:v1" (PStr "1") 20;
         EvGet "upvx:courses_all:stale:v1"; EvGet "upvx:courses_all:v1"; EvNow]) ∧
  ∃ generated_at, [AStr "now"] = [AStr generated_at] ∧
    Returned {| status := 200;
                payload := snapshot_payload (PList [course "a"]) 1 "cache" "now" |} =
    Returned {| status := 200;
                payload := snapshot_payload (PList [course "a"]) 1 "cache" generated_at |} ∧
    [EvGet "upvx:courses_all:v1"; EvAdd "upvx:courses_all:lock:v1" (PStr "1") 20;
     EvGet "upvx:courses_all:stale:v1"; EvGet "upvx:courses_all:v1"; EvNow] =
    [EvGet "upvx:courses_all:v1"; EvAdd "upvx:courses_all:lock:v1" (PStr "1") 20;
     EvGet "upvx:courses_all:stale:v1"] ++ [EvGet "upvx:courses_all:v1"; EvNow].
Proof.
  assert (replay (CatalogCache.courses_all 10 no_settings lms_request)
            [AObj PNone; ABool false; AObj PNone; AObj (PList [course "a"]); AStr "now"] =
          Some (Returned {| status := 200;
                            payload := snapshot_payload (PList [course "a"]) 1 "cache" "now" |},
                [EvGet "upvx:courses_all:v1"; EvAdd "upvx:courses_all:lock:v1" (PStr "1") 20;
                 EvGet "upvx:courses_all:stale:v1"; EvGet "upvx:courses_all:v1"; EvNow]))
    as Hreplay by (vm_compute; reflexivity).
  split; [exact Hreplay|].
  destruct (lock_lost_ladder 10 no_settings lms_request _ _ _ Hreplay) as (_ & Hcache & _).
  exact (Hcache [course "a"] [AStr "now"] eq_refl).
Defined.

Lemma one_refresh_at_a_time_witness :
  let lock := "upvx:courses_all:lock:v1" in
  let tr := snd (pool_run two_workers contest) in
  in_window lock two_workers contest ∧
  (∀ tr1 tr2, tr = tr1 ++ tr2 → (length (holders lock [] tr1) ≤ 1)%nat) ∧
  (∀ tr1 i key value timeout tr2,
     tr = tr1 ++ (i, EvAdd key value timeout, ABool true) :: tr2 →
     key = lock ∧ holders lock [] tr1 = []) ∧
  (∀ tr1 i url timeout a tr2,
     tr = tr1 ++ (i, EvHttp url timeout, a) :: tr2 → holders lock [] tr1 = [i]) ∧
  (∀ tr1 i key value timeout a tr2,
     tr = tr1 ++ (i, EvSet key value timeout, a) :: tr2 → key ≠ lock).
Proof.
  intros lock tr.
  assert (in_window lock two_workers contest) as Hwin.
  { unfold contest. cbn [in_window].
    repeat (split; [intros v expiry Heq; vm_compute in Heq; try discriminate;
                    injection Heq as <- <-; vm_compute; reflexivity|]).
    exact I. }
  split; [exact Hwin|].
  refine (one_refresh_at_a_time no_settings [(10%nat, lms_request); (10%nat, lms_request)]
            cold contest _ Hwin).
  repeat split; discriminate.
Defined.

(** * Further properties of the code *)

(** ** More on the fetcher *)

Lemma append_nonempty (s1 s2 : string) : s2 ≠ "" → s1 +:+ s2 ≠ "".
Proof. intros Hs2. destruct s1; [done|]. by simpl. Qed.

Lemma append_nonempty_l (s1 s2 : string) : s1 ≠ "" → s1 +:+ s2 ≠ "".
Proof. intros Hs1. by destruct s1. Qed.

Lemma first_url_truthy (s : Settings) (req : HttpRequest) : truthy (first_url s req) = true.
Proof.
  unfold first_url, truthy.
  destruct (String.eqb_spec (CatalogCache._build_internal_url s req (CatalogCache.cfg_api_path s)
              ("?page_size=" +:+ pretty (CatalogCache.cfg_page_size s))) "") as [Hempty|]; [|done].
  exfalso. revert Hempty. unfold CatalogCache._build_internal_url.
  destruct (negb _); repeat first [by apply append_nonempty_l | apply append_nonempty].
Qed.

Section FetcherEdges.
Context {Env : Type} `{Environment Env}.
Import CatalogCache.

(** X1. The fetcher always asks for the first page: its first URL is never
    empty, whatever the settings and the request. *)
Theorem fetch_asks_first_page fuel s req (w : World Env) :
  ∃ o w' tr,
    run (_fetch_all_courses_from_courses_api (S fuel) s req) w =
      (o, w', EvHttp (first_url s req) (cfg_request_timeout s) :: tr).
Proof.
  unfold _fetch_all_courses_from_courses_api. fold (first_url s req).
  cbn [fetch_loop]. rewrite first_url_truthy. cbn [session_get bind run].
  destruct (http_get (env w) (first_url s req) (cfg_request_timeout s)) as [r e1].
  destruct (run _ _) as [[o w'] tr]. by eexists _, _, _.
Qed.

(** X2. The fetcher leaves the cache alone: all it does is ask the upstream, at
    most once per iteration and always with the configured timeout. *)
Theorem fetch_only_asks_upstream fuel s req (w : World Env) o w' tr :
  run (_fetch_all_courses_from_courses_api fuel s req) w = (o, w', tr) →
  store w' = store w ∧
  Forall (λ ev, ∃ url, ev = EvHttp url (cfg_request_timeout s)) tr ∧
  (length tr ≤ fuel)%nat.
Proof.
  unfold _fetch_all_courses_from_courses_api.
  generalize (PStr (_build_internal_url s req (cfg_api_path s)
                      ("?page_size=" +:+ pretty (cfg_page_size s)))) as url.
  generalize 1 as page. generalize (@nil pyobj) as acc.
  revert w o w' tr. induction fuel as [|fuel IH]; intros w o w' tr acc page url.
  - simpl. destruct (truthy url); simpl; intros [= <- <- <-]; by split_and!.
  - cbn [fetch_loop]. destruct (truthy url);
      [|simpl; intros [= <- <- <-]; split_and!; [done|done|simpl; lia]].
    cbn [session_get bind run].
    assert (∀ (e1 : Env) (x : Outcome (list pyobj)),
              (x, {| store := store w; env := e1 |}, [EvHttp url (cfg_request_timeout s)])
              = (o, w', tr) →
              store w' = store w ∧
              Forall (λ ev, ∃ url, ev = EvHttp url (cfg_request_timeout s)) tr ∧
              (length tr ≤ S fuel)%nat) as Hstop.
    { intros e1 x [= <- <- <-]. split_and!; [done| |simpl; lia].
      repeat constructor. by eexists. }
    destruct (http_get (env w) url (cfg_request_timeout s)) as [[resp|e] e1]; cbn [bind run];
      [|apply Hstop].
    destruct (negb (status_code resp =? 200)); cbn [run]; [apply Hstop|].
    destruct (resp_json resp) as [e|data]; cbn [lift bind run]; [apply Hstop|].
    destruct (py_get data "results") as [e|r]; cbn [lift bind run]; [apply Hstop|].
    destruct (py_get data "pagination") as [e|pg]; cbn [lift bind run]; [apply Hstop|].
    destruct (py_get (py_or pg (PDict [])) "next") as [e|next]; cbn [lift bind run];
      [apply Hstop|].
    destruct (run (fetch_loop fuel s next _ _) _) as [[o1 w1] tr1] eqn:E.
    intros [= <- <- <-]. apply IH in E as (E1 & E2 & E3). split_and!; [done| |simpl; lia].
    constructor; [by eexists|done].
Qed.

(** X3. A transport failure on any page ([session.get] raises) ends the fetch at
    once with that very exception. *)
Theorem transport_error_aborts_fetch fuel s req (w : World Env) pages e1 url1 exc e2 :
  paging (cfg_request_timeout s) (env w) (first_url s req) pages e1 url1 →
  truthy url1 = true →
  http_get e1 url1 (cfg_request_timeout s) = (HttpRaise exc, e2) →
  (length pages < fuel)%nat →
  ∃ tr,
    run (_fetch_all_courses_from_courses_api fuel s req) w =
      (Raised exc, {| store := store w; env := e2 |}, tr) ∧
    length tr = S (length pages).
Proof.
  intros Hpaging Hurl Hget Hfuel.
  replace fuel with (length pages + S (fuel - S (length pages)))%nat by lia.
  destruct (fetch_loop_paging (S (fuel - S (length pages))) s (first_url s req) 1 [] w
              pages e1 url1 Hpaging) as (tr0 & Hlen & Hhttp & Hrun).
  exists (tr0 ++ [EvHttp url1 (cfg_request_timeout s)]).
  unfold _fetch_all_courses_from_courses_api. fold (first_url s req). rewrite Hrun.
  cbn [fetch_loop]. rewrite Hurl. cbn [session_get bind run store env]. rewrite Hget.
  cbn [bind run]. split; [done|]. rewrite length_app. simpl. lia.
Qed.

(** X4. A 200 page whose body cannot be decoded, or decodes to something that is
    not an object, ends the fetch: with the decoder's exception in the first
    case, with an [AttributeError] naming the type in the second. *)
Theorem bad_body_aborts_fetch fuel s url page acc (w : World Env) resp e1 :
  truthy url = true →
  http_get (env w) url (cfg_request_timeout s) = (HttpResp resp, e1) →
  status_code resp = 200 →
  (∀ data, resp_json resp ≠ inr (PDict data)) →
  run (fetch_loop (S fuel) s url page acc) w =
    (Raised match resp_json resp with
            | inl exc => exc
            | inr v => AttributeError ("'" +:+ type_name v +:+ "' object has no attribute 'get'")
            end,
     {| store := store w; env := e1 |}, [EvHttp url (cfg_request_timeout s)]).
Proof.
  intros Hu Hget Hst Hbad.
  cbn [fetch_loop]. rewrite Hu. cbn [session_get bind run]. rewrite Hget.
  cbn [bind]. rewrite Hst. cbn [Z.eqb negb Pos.eqb].
  destruct (resp_json resp) as [exc|[| | | | |data]]; try done.
  by destruct (Hbad data).
Qed.

(** X5. A page whose [pagination] is missing, null or otherwise falsy is the
    last one: the fetch returns what it has accumulated, this page's results
    included. *)
Theorem falsy_pagination_ends_fetch fuel s url page acc (w : World Env) resp e1 data results :
  truthy url = true →
  http_get (env w) url (cfg_request_timeout s) = (HttpResp resp, e1) →
  status_code resp = 200 →
  resp_json resp = inr (PDict data) →
  assoc "results" data = Some (PList results) →
  truthy (default PNone (assoc "pagination" data)) = false →
  run (fetch_loop (S fuel) s url page acc) w =
    (Returned (acc ++ results), {| store := store w; env := e1 |},
     [EvHttp url (cfg_request_timeout s)]).
Proof.
  intros Hu Hget Hst Hjson Hres Hpag.
  cbn [fetch_loop]. rewrite Hu. cbn [session_get bind run]. rewrite Hget.
  cbn [bind]. rewrite Hst. cbn [Z.eqb negb Pos.eqb]. rewrite Hjson. cbn [lift bind py_get].
  rewrite Hres. change (default PNone (Some (PList results))) with (PList results).
  rewrite results_or_empty. unfold py_or at 1. rewrite Hpag. cbn [py_get assoc default lift bind].
  by rewrite fetch_loop_falsy.
Qed.

(** X6. A page whose [pagination] is truthy but not an object (a string, a
    number, a non-empty list) ends the fetch with an [AttributeError]. *)
Theorem non_object_pagination_aborts_fetch fuel s url page acc (w : World Env) resp e1 data p :
  truthy url = true →
  http_get (env w) url (cfg_request_timeout s) = (HttpResp resp, e1) →
  status_code resp = 200 →
  resp_json resp = inr (PDict data) →
  assoc "pagination" data = Some p →
  truthy p = true →
  (∀ d, p ≠ PDict d) →
  run (fetch_loop (S fuel) s url page acc) w =
    (Raised (AttributeError ("'" +:+ type_name p +:+ "' object has no attribute 'get'")),
     {| store := store w; env := e1 |}, [EvHttp url (cfg_request_timeout s)]).
Proof.
  intros Hu Hget Hst Hjson Hpag Htruthy Hnot.
  cbn [fetch_loop]. rewrite Hu. cbn [session_get bind run]. rewrite Hget.
  cbn [bind]. rewrite Hst. cbn [Z.eqb negb Pos.eqb]. rewrite Hjson. cbn [lift bind py_get].
  rewrite Hpag. change (default PNone (Some p)) with p.
  unfold py_or at 1. rewrite Htruthy.
  destruct p as [| | | | |d]; try done. by destruct (Hnot d).
Qed.
End FetcherEdges.

(** ** More on the view *)

Section ViewEdges.
Context {Env : Type} `{Environment Env}.
Import CatalogCache.

(** X7. A request that finds a snapshot under the fresh key, an empty one
    included, answers it with source ["cache"] after reading that key and
    the clock: it does not contest the lock, look at the stale key or call
    the upstream, and it leaves the world as it was. *)
Theorem fresh_hit_is_read_only fuel s req (w : World Env) snapshot :
  store_get w (cfg_cache_key s) = PList snapshot →
  run (courses_all fuel s req) w =
    (Returned {| status := 200;
                 payload := snapshot_payload (PList snapshot) (Z.of_nat (length snapshot))
                              "cache" (isoformat (clock (env w))) |},
     w, [EvGet (cfg_cache_key s); EvNow]).
Proof.
  intros Hhit. by rewrite (run_courses_all_hit _ _ _ _ _ Hhit eq_refl), run_json_response.
Qed.

(** X8. A request that misses the fresh key while another holder's lock is live
    changes nothing: after its failed [add] it only reads, so it writes no
    tier, calls no upstream and, above all, does not delete the lock it does
    not hold. *)
Theorem loser_changes_nothing fuel s req (w : World Env) held :
  store_get w (cfg_cache_key s) = PNone →
  live (store w) (clock (env w)) (cfg_lock_key s) = Some held →
  ∃ o rest,
    run (courses_all fuel s req) w =
      (o, w, EvGet (cfg_cache_key s) :: EvAdd (cfg_lock_key s) (PStr "1") (cfg_lock_ttl s) :: rest) ∧
    o ≠ Looping ∧
    Forall reads_only rest.
Proof.
  intros Hmiss Hheld. rewrite (run_courses_all_lost _ _ _ _ _ Hmiss Hheld). cbv zeta.
  destruct (is_not_none _); [destruct (py_len _)|];
    (eexists _, _; split; [reflexivity|split; [done|by repeat constructor]]).
Qed.

(** X9. A lock entry that has outlived its TTL does not stop a refresh: the
    request that misses the fresh key takes the lock over and goes on to ask
    the upstream for the first page. *)
Theorem expired_lock_is_taken_over fuel s req (w : World Env) token expiry :
  store_get w (cfg_cache_key s) = PNone →
  store w !! cfg_lock_key s = Some (token, expiry) →
  expiry ≤ clock (env w) →
  ∃ o w' tr,
    run (courses_all (S fuel) s req) w =
      (o, w', EvGet (cfg_cache_key s) :: EvAdd (cfg_lock_key s) (PStr "1") (cfg_lock_ttl s)
                :: EvHttp (first_url s req) (cfg_request_timeout s) :: tr).
Proof.
  intros Hmiss Hlock Hexp.
  assert (live (store w) (clock (env w)) (cfg_lock_key s) = None) as Hfree.
  { unfold live. rewrite Hlock. by destruct (Z.ltb_spec (clock (env w)) expiry); [lia|]. }
  rewrite (run_courses_all_acquired _ _ _ _ Hmiss Hfree). cbv zeta.
  destruct (fetch_asks_first_page fuel s req
              (store_set w (cfg_lock_key s) (PStr "1") (cfg_lock_ttl s)))
    as (fo & w2 & ftr & ->).
  destruct fo as [results|exc|]; [| |by eexists _, _, _].
  - by eexists _, _, _.
  - destruct (is_not_none _); [destruct (py_len _)|]; by eexists _, _, _.
Qed.

Lemma store_get_cases (w : World Env) key :
  store_get w key = PNone ∨ ∃ expiry, store w !! key = Some (store_get w key, expiry).
Proof.
  unfold store_get, live. destruct (store w !! key) as [[v expiry]|]; [|by left].
  destruct (clock (env w) <? expiry); [|by left]. right. by exists expiry.
Qed.

(** X10. As long as the store holds nothing but sized values (the lists and the
    token that the view itself writes), a view that comes to an end has
    answered 200, 502 or 503; no exception leaves it, and the store it
    leaves behind again holds nothing but sized values. *)
Theorem view_answers_200_502_503 fuel s req (w : World Env) o w' tr :
  store_sized (store w) →
  run (courses_all fuel s req) w = (o, w', tr) →
  o ≠ Looping →
  (∃ resp, o = Returned resp ∧ (status resp = 200 ∨ status resp = 502 ∨ status resp = 503)) ∧
  store_sized (store w').
Proof.
  intros Hsized Hrun Hend.
  assert (∀ (w0 : World Env) key, store_sized (store w0) →
            is_not_none (store_get w0 key) = true →
            ∃ n, py_len (store_get w0 key) = inr n) as Hlen.
  { intros w0 key Hs Hsome. destruct (store_get_cases w0 key) as [Hnone|[expiry Hin]].
    - by rewrite Hnone in Hsome.
    - specialize (Hs _ _ _ Hin). unfold is_sized in Hs.
      destruct (py_len (store_get w0 key)) as [|n]; [done|by exists n]. }
  assert (∀ st key v expiry, store_sized st → is_sized v = true →
            store_sized (<[key := (v, expiry)]> st)) as Hins.
  { intros st key v expiry Hs Hv k v0 ex0 Hin.
    apply lookup_insert_Some in Hin as [[_ [= <- <-]]|[_ Hin]]; [done|by eapply Hs]. }
  assert (∀ st key, store_sized st → store_sized (delete key st)) as Hdel.
  { intros st key Hs k v0 ex0 Hin. apply lookup_delete_Some in Hin as [_ Hin]. by eapply Hs. }
  destruct (is_not_none (store_get w (cfg_cache_key s))) eqn:Hhit.
  { rewrite (run_courses_all_hit _ _ _ _ _ eq_refl Hhit), run_json_response in Hrun.
    destruct (Hlen w _ Hsized Hhit) as [n Hn]. rewrite Hn in Hrun.
    injection Hrun as <- <- <-. split; [|done]. eexists. split; [done|by left]. }
  assert (store_get w (cfg_cache_key s) = PNone) as Hmiss.
  { by destruct (store_get w (cfg_cache_key s)). }
  destruct (live (store w) (clock (env w)) (cfg_lock_key s)) as [held|] eqn:Hlock.
  - rewrite (run_courses_all_lost _ _ _ _ _ Hmiss Hlock) in Hrun. cbv zeta in Hrun.
    destruct (is_not_none (store_get w (cfg_stale_key s))) eqn:Hstale.
    + destruct (Hlen w _ Hsized Hstale) as [n Hn]. rewrite Hn in Hrun.
      injection Hrun as <- <- <-. split; [|done]. eexists. split; [done|by left].
    + injection Hrun as <- <- <-. split; [|done]. eexists. split; [done|by right; right].
  - rewrite (run_courses_all_acquired _ _ _ _ Hmiss Hlock) in Hrun. cbv zeta in Hrun.
    destruct (run (_fetch_all_courses_from_courses_api fuel s req) _)
      as [[[results|exc|] w2] ftr] eqn:Hfetch.
    + injection Hrun as <- <- <-. apply fetch_store in Hfetch as [Hst _].
      split; [eexists; split; [done|by left]|].
      simpl. rewrite Hst. simpl. apply Hdel. repeat (apply Hins; [|done]). done.
    + apply fetch_store in Hfetch as [Hst _].
      assert (store_sized (store w2)) as Hs2. { rewrite Hst. simpl. by apply Hins. }
      destruct (is_not_none (store_get w2 (cfg_stale_key s))) eqn:Hstale.
      * destruct (Hlen w2 _ Hs2 Hstale) as [n Hn]. rewrite Hn in Hrun.
        injection Hrun as <- <- <-. split; [eexists; split; [done|by left]|].
        simpl. by apply Hdel.
      * injection Hrun as <- <- <-. split; [eexists; split; [done|by right; left]|].
        simpl. by apply Hdel.
    + by injection Hrun as <- <- <-.
Qed.

(** X11. The two tiers are written by a successful refresh and by nothing else:
    whenever the view performs a [cache.set], it is of the list it answers
    with source ["fresh"], under the fresh key with the fresh TTL or under
    the stale key with the stale TTL. *)
Theorem tiers_written_only_by_refresh fuel s req (w : World Env) o w' tr key value timeout :
  run (courses_all fuel s req) w = (o, w', tr) →
  EvSet key value timeout ∈ tr →
  ∃ results generated_at,
    value = PList results ∧
    (key = cfg_cache_key s ∧ timeout = cfg_cache_ttl s ∨
     key = cfg_stale_key s ∧ timeout = cfg_stale_ttl s) ∧
    o = Returned {| status := 200;
                    payload := snapshot_payload (PList results) (Z.of_nat (length results))
                                 "fresh" generated_at |}.
Proof.
  intros Hrun Hset.
  set (P := λ ev : Event, ∀ k v t, ev ≠ EvSet k v t).
  assert (∀ l : list Event, Forall P l → EvSet key value timeout ∉ l) as Hno.
  { intros l Hall Hin. rewrite Forall_forall in Hall. exact (Hall _ Hin _ _ _ eq_refl). }
  assert (∀ ftr : list Event, Forall is_http ftr → Forall P ftr) as Hhttp.
  { intros ftr Hall. eapply Forall_impl; [exact Hall|]. by intros []. }
  destruct (is_not_none (store_get w (cfg_cache_key s))) eqn:Hhit.
  { rewrite (run_courses_all_hit _ _ _ _ _ eq_refl Hhit), run_json_response in Hrun.
    exfalso. revert Hset. apply Hno.
    destruct (py_len _); injection Hrun as <- <- <-; by repeat constructor. }
  assert (store_get w (cfg_cache_key s) = PNone) as Hmiss.
  { by destruct (store_get w (cfg_cache_key s)). }
  destruct (live (store w) (clock (env w)) (cfg_lock_key s)) as [held|] eqn:Hlock.
  - rewrite (run_courses_all_lost _ _ _ _ _ Hmiss Hlock) in Hrun. cbv zeta in Hrun.
    exfalso. revert Hset. apply Hno.
    destruct (is_not_none _); [destruct (py_len _)|]; injection Hrun as <- <- <-;
      by repeat constructor.
  - rewrite (run_courses_all_acquired _ _ _ _ Hmiss Hlock) in Hrun. cbv zeta in Hrun.
    destruct (run (_fetch_all_courses_from_courses_api fuel s req) _)
      as [[[results|exc|] w2] ftr] eqn:Hfetch; apply fetch_store in Hfetch as [_ Hall];
      apply Hhttp in Hall.
    + injection Hrun as <- <- <-. exists results, (isoformat (clock (env w2))).
      rewrite !elem_of_cons, elem_of_app in Hset. destruct Hset as [|[|[Hset|Hset]]]; try done.
      * exfalso. revert Hset. by apply Hno.
      * rewrite !elem_of_cons in Hset.
        destruct Hset as [[= -> -> ->]|[[= -> -> ->]|[|[|Hnil]]]]; try done.
        -- split_and!; auto.
        -- split_and!; auto.
        -- by apply elem_of_nil in Hnil.
    + exfalso. revert Hset. apply Hno.
      destruct (is_not_none _); [destruct (py_len _)|]; injection Hrun as <- <- <-;
        (do 2 (constructor; [done|]));
        (apply Forall_app; split; [done|by repeat constructor]).
    + exfalso. revert Hset. apply Hno. injection Hrun as <- <- <-.
      by do 2 (constructor; [done|]).
Qed.

(** X12. Once the fresh entry of a successful refresh has expired, and for as
    long as its stale entry has not, a request whose own refresh fails
    answers the list of that earlier refresh, source ["stale"], status 200. *)
Theorem stale_serves_after_fresh_expiry fuel s req (w : World Env) results w2 ftr
    (later : World Env) fuel' req' exc w3 ftr' :
  distinct_keys s →
  store_get w (cfg_cache_key s) = PNone →
  live (store w) (clock (env w)) (cfg_lock_key s) = None →
  run (_fetch_all_courses_from_courses_api fuel s req)
      (store_set w (cfg_lock_key s) (PStr "1") (cfg_lock_ttl s)) = (Returned results, w2, ftr) →
  store later = store (run (courses_all fuel s req) w).1.2 →
  clock (env w2) + cfg_cache_ttl s ≤ clock (env later) →
  run (_fetch_all_courses_from_courses_api fuel' s req')
      (store_set later (cfg_lock_key s) (PStr "1") (cfg_lock_ttl s)) = (Raised exc, w3, ftr') →
  clock (env w3) < clock (env w2) + cfg_stale_ttl s →
  ∃ w'' tr,
    run (courses_all fuel' s req') later =
      (Returned {| status := 200;
                   payload := snapshot_payload (PList results) (Z.of_nat (length results))
                                "stale" (isoformat (clock (env w3))) |}, w'', tr).
Proof.
  intros (Hcs & Hcl & Hsl) Hmiss Hfree Hfetch Hstore Hexpired Hfetch' Hstale.
  rewrite (run_courses_all_acquired _ _ _ _ Hmiss Hfree), Hfetch in Hstore.
  cbv zeta in Hstore. simpl in Hstore.
  assert (store_get later (cfg_cache_key s) = PNone) as Hmiss'.
  { unfold store_get, live. rewrite Hstore.
    rewrite lookup_delete_ne by done. rewrite lookup_insert_ne by done.
    rewrite lookup_insert_eq.
    by destruct (Z.ltb_spec (clock (env later)) (clock (env w2) + cfg_cache_ttl s)); [lia|]. }
  assert (live (store later) (clock (env later)) (cfg_lock_key s) = None) as Hfree'.
  { unfold live. by rewrite Hstore, lookup_delete_eq. }
  rewrite (run_courses_all_acquired _ _ _ _ Hmiss' Hfree'), Hfetch'. cbv zeta.
  apply fetch_store in Hfetch' as [Hst3 _].
  assert (store_get w3 (cfg_stale_key s) = PList results) as ->.
  { unfold store_get, live. rewrite Hst3. simpl. rewrite lookup_insert_ne by done.
    rewrite Hstore. rewrite lookup_delete_ne by done. rewrite lookup_insert_eq.
    by destruct (Z.ltb_spec (clock (env w3)) (clock (env w2) + cfg_stale_ttl s)); [|lia]. }
  simpl. by eexists _, _.
Qed.
End ViewEdges.

(** ** Pagination without end *)

Section Endless.
Context {Env : Type} `{Environment Env}.
Import CatalogCache.

Lemma fetch_loop_endless (P : Env → pyobj → Prop) fuel s url page acc (w : World Env) :
  endless (cfg_request_timeout s) P →
  P (env w) url →
  ∃ w' tr,
    run (fetch_loop fuel s url page acc) w = (Looping, w', tr) ∧
    length tr = fuel ∧ store w' = store w.
Proof.
  intros Hendless. revert url page acc w.
  induction fuel as [|fuel IH]; intros url page acc w HP;
    destruct (Hendless _ _ HP) as (Hu & resp & e1 & results & next & Hget & Hpage & HP1).
  - simpl. rewrite Hu. by eexists _, _.
  - rewrite (fetch_loop_page _ _ _ _ _ _ _ _ _ _ Hu Hget Hpage).
    destruct (IH next (page + 1) (acc ++ results) {| store := store w; env := e1 |} HP1)
      as (w' & tr & -> & Hlen & Hst).
    eexists _, _. split_and!; [done|simpl; by rewrite Hlen|done].
Qed.

(** X13. The loop has no page cap: in front of an upstream that never stops
    paginating, the fetcher is still asking after any number of iterations,
    one request per iteration, and the view that called it is still holding
    the lock, with nothing written to either tier. *)
Theorem endless_pagination_never_returns (P : Env → pyobj → Prop) fuel s req (w : World Env) :
  endless (cfg_request_timeout s) P →
  P (env w) (first_url s req) →
  store_get w (cfg_cache_key s) = PNone →
  live (store w) (clock (env w)) (cfg_lock_key s) = None →
  ∃ w' ftr,
    length ftr = fuel ∧
    Forall is_http ftr ∧
    run (courses_all fuel s req) w =
      (Looping, w',
       EvGet (cfg_cache_key s) :: EvAdd (cfg_lock_key s) (PStr "1") (cfg_lock_ttl s) :: ftr) ∧
    store w' = <[cfg_lock_key s := (PStr "1", clock (env w) + cfg_lock_ttl s)]> (store w).
Proof.
  intros Hendless HP Hmiss Hfree.
  rewrite (run_courses_all_acquired _ _ _ _ Hmiss Hfree). cbv zeta.
  destruct (fetch_loop_endless P fuel s (first_url s req) 1 []
              (store_set w (cfg_lock_key s) (PStr "1") (cfg_lock_ttl s)) Hendless HP)
    as (w' & ftr & Hrun & Hlen & Hst).
  unfold _fetch_all_courses_from_courses_api. fold (first_url s req). rewrite Hrun.
  exists w', ftr. split_and!; [done| |done|done].
  by apply fetch_loop_store in Hrun as [_ ?].
Qed.
End Endless.

(** ** The internal URL *)

Lemma rstrip_slash_slashes (n : nat) : rstrip_slash (slashes n) = "".
Proof. induction n as [|n IH]; [done|]. simpl. by rewrite IH. Qed.

Lemma rstrip_slash_decompose (s : string) :
  ∃ n, s = rstrip_slash s +:+ slashes n.
Proof.
  induction s as [|c s [n IH]]; [by exists 0%nat|].
  simpl. destruct (rstrip_slash s) as [|c' r] eqn:Hr.
  - destruct (Ascii.eqb_spec c "/"%char) as [->|_].
    + exists (S n). exact (f_equal (String "/"%char) IH).
    + exists n. exact (f_equal (String c) IH).
  - exists n. exact (f_equal (String c) IH).
Qed.

Lemma rstrip_slash_no_trailing (s : string) : ends_with_slash (rstrip_slash s) = false.
Proof.
  induction s as [|c s IH]; [done|].
  simpl. destruct (rstrip_slash s) as [|c' r] eqn:Hr.
  - destruct (Ascii.eqb_spec c "/"%char) as [->|Hc]; [done|]. simpl.
    by destruct (Ascii.eqb_spec c "/"%char).
  - done.
Qed.

(** X14. The site root is the [LMS_ROOT_URL] setting (the empty string when
    unset) without its trailing slashes: it never ends with a slash, and the
    setting is the root followed by slashes only. *)
Theorem site_root_has_no_trailing_slash (s : Settings) :
  ends_with_slash (CatalogCache._get_site_root s) = false ∧
  ∃ n, default "" (LMS_ROOT_URL s) = CatalogCache._get_site_root s +:+ slashes n.
Proof.
  unfold CatalogCache._get_site_root. split.
  - apply rstrip_slash_no_trailing.
  - apply rstrip_slash_decompose.
Qed.

(** X15. With a site root in the settings the internal URL is that root, the
    path and the query, whatever the request. *)
Theorem site_root_overrides_request (s : Settings) (req1 req2 : HttpRequest) path query :
  CatalogCache._get_site_root s ≠ "" →
  CatalogCache._build_internal_url s req1 path query =
    CatalogCache._get_site_root s +:+ path +:+ query ∧
  CatalogCache._build_internal_url s req1 path query =
    CatalogCache._build_internal_url s req2 path query.
Proof.
  intros Hroot. unfold CatalogCache._build_internal_url.
  by destruct (String.eqb_spec (CatalogCache._get_site_root s) "").
Qed.

(** X16. An [LMS_ROOT_URL] that is unset, empty or made of slashes only counts
    as no root at all: the internal URL is built from the request's host,
    with scheme [https] exactly when the request is secure. *)
Theorem blank_site_root_falls_back_to_request (s : Settings) (req : HttpRequest) path query n :
  default "" (LMS_ROOT_URL s) = slashes n →
  CatalogCache._build_internal_url s req path query =
    (if is_secure req then "https" else "http") +:+ "://" +:+ get_host req +:+ path +:+ query.
Proof.
  intros Hblank. unfold CatalogCache._build_internal_url, CatalogCache._get_site_root.
  by rewrite Hblank, rstrip_slash_slashes.
Qed.

(** ** The hard-coded view on its own *)

Lemma courses_all_peq fuel (s : Settings) req :
  default_settings s →
  peq (Legacy.courses_all fuel s req) (CatalogCache.courses_all fuel s req).
Proof.
  intros Hs. pose proof Hs as (Hck & Hsk & Hlk & Hct & Hst & Hlt & _).
  unfold Legacy.courses_all, CatalogCache.courses_all,
    CatalogCache.cfg_cache_key, CatalogCache.cfg_stale_key, CatalogCache.cfg_lock_key,
    CatalogCache.cfg_cache_ttl, CatalogCache.cfg_stale_ttl, CatalogCache.cfg_lock_ttl,
    CatalogCache._cfg.
  rewrite Hck, Hsk, Hlk, Hct, Hst, Hlt. cbn [default].
  apply peq_bind; [apply peq_refl|]. intros cached.
  destruct (CatalogCache.is_not_none cached); [apply peq_refl|].
  apply peq_bind; [apply peq_refl|]. intros [|]; [|apply peq_refl].
  apply peq_try_finally, peq_try_except; [|intros exc; apply peq_refl].
  apply peq_bind; [|intros results; apply peq_refl].
  unfold Legacy._fetch_all_courses_from_courses_api,
    CatalogCache._fetch_all_courses_from_courses_api.
  rewrite (default_url s req Hs). by apply fetch_loop_peq.
Qed.

Lemma only_root_default (s : Settings) : default_settings (only_root s).
Proof. by repeat split. Qed.

Section LegacyView.
Context {Env : Type} `{Environment Env}.

(** X17. The hard-coded view reads no [COURSE_CATALOG_CACHE_*] setting: whatever
    these are set to, it runs as the settings-driven view runs with all of
    them removed. *)
Theorem legacy_view_ignores_overrides fuel s req (w : World Env) :
  run (Legacy.courses_all fuel s req) w =
  run (CatalogCache.courses_all fuel (only_root s) req) w.
Proof.
  change (Legacy.courses_all fuel s req) with (Legacy.courses_all fuel (only_root s) req).
  apply run_peq, courses_all_peq, only_root_default.
Qed.

(** X18. The hard-coded view, too, releases its lock on every exit: once it has
    acquired the lock and its fetch has come to an end, by return or by
    exception, its last operation is the [delete] of [LOCK_KEY] and the key
    is gone from the store. *)
Theorem legacy_lock_released fuel s req (w : World Env) fo w2 ftr :
  store_get w Legacy.CACHE_KEY = PNone →
  live (store w) (clock (env w)) Legacy.LOCK_KEY = None →
  run (Legacy._fetch_all_courses_from_courses_api fuel s req)
      (store_set w Legacy.LOCK_KEY (PStr "1") Legacy.LOCK_TTL_SECONDS) = (fo, w2, ftr) →
  fo ≠ Looping →
  ∃ o w' tr,
    run (Legacy.courses_all fuel s req) w = (o, w', tr ++ [EvDelete Legacy.LOCK_KEY]) ∧
    o ≠ Looping ∧
    store w' !! Legacy.LOCK_KEY = None.
Proof.
  intros Hmiss Hfree Hfetch Hend.
  rewrite legacy_view_ignores_overrides.
  assert (run (CatalogCache._fetch_all_courses_from_courses_api fuel (only_root s) req)
            (store_set w Legacy.LOCK_KEY (PStr "1") Legacy.LOCK_TTL_SECONDS) = (fo, w2, ftr))
    as Hfetch'.
  { rewrite <- Hfetch. symmetry.
    change (Legacy._fetch_all_courses_from_courses_api fuel s req)
      with (Legacy._fetch_all_courses_from_courses_api fuel (only_root s) req).
    apply run_peq. unfold Legacy._fetch_all_courses_from_courses_api,
      CatalogCache._fetch_all_courses_from_courses_api.
    rewrite (default_url _ req (only_root_default s)).
    apply fetch_loop_peq, only_root_default. }
  rewrite (run_courses_all_acquired fuel (only_root s) req w Hmiss Hfree). cbv zeta.
  change (CatalogCache.cfg_lock_key (only_root s)) with Legacy.LOCK_KEY.
  change (CatalogCache.cfg_lock_ttl (only_root s)) with Legacy.LOCK_TTL_SECONDS.
  rewrite Hfetch'.
  set (pre := [EvGet (CatalogCache.cfg_cache_key (only_root s));
               EvAdd Legacy.LOCK_KEY (PStr "1") Legacy.LOCK_TTL_SECONDS]).
  assert (∀ w0 : World Env, store (store_delete w0 Legacy.LOCK_KEY) !! Legacy.LOCK_KEY = None)
    as Hdel.
  { intros w0. simpl. apply lookup_delete_eq. }
  destruct fo as [results|exc|]; [| |done].
  - eexists _, _, (pre ++ ftr ++ [EvSet _ _ _; EvSet _ _ _; EvNow]).
    split; [by rewrite <- !app_assoc | split; [done | apply Hdel]].
  - destruct (CatalogCache.is_not_none _); [destruct (py_len _)|].
    + eexists _, _, (pre ++ ftr ++ [EvGet _]).
      split; [by rewrite <- !app_assoc | split; [done | apply Hdel]].
    + eexists _, _, (pre ++ ftr ++ [EvGet _; EvNow]).
      split; [by rewrite <- !app_assoc | split; [done | apply Hdel]].
    + eexists _, _, (pre ++ ftr ++ [EvGet _; EvNow]).
      split; [by rewrite <- !app_assoc | split; [done | apply Hdel]].
Qed.
End LegacyView.

(** ** Who releases the lock *)

Lemma released_by_holder_app lock held tr1 tr2 :
  released_by_holder lock held (tr1 ++ tr2) →
  released_by_holder lock (holders lock held tr1) tr2.
Proof.
  revert held. induction tr1 as [|[[i ev] a] tr1 IH]; intros held Hrel; [done|].
  destruct Hrel as [_ Hrel].
  change ((i, ev, a) :: tr1) with ([(i, ev, a)] ++ tr1). rewrite holders_app. by apply IH.
Qed.

Section Release.
Context {Env : Type} `{Environment Env}.

Lemma pool_step_release {A : Type} lock (pl : Pool A) held m pl' tr :
  pool_inv lock pl held →
  pool_step pl m = (pl', tr) →
  released_by_holder lock held tr.
Proof.
  intros [Hheld Hshape] Hstep. destruct m as [i|e]; simpl in Hstep;
    [|by injection Hstep as <- <-].
  destruct (workers pl !! i) as [p|] eqn:Hp; [|by injection Hstep as <- <-].
  pose proof (Hshape i p Hp) as Hrole.
  destruct p as [a|e| |key k|key v t k|key v t k|key k|url t k|k]; simpl in Hstep;
    try (injection Hstep as <- <-; by repeat split).
  - destruct (store_add (shared pl) key v t). by injection Hstep as <- <-.
  - injection Hstep as <- <-. simpl. split; [|done].
    destruct (decide (i ∈ held)) as [Hin|Hout]; [|done]. destruct Hrole as [-> _].
    split; [done|]. destruct Hheld as [->|(j & -> & _)]; [by apply elem_of_nil in Hin|].
    apply list_elem_of_singleton in Hin. by subst.
  - destruct (http_get (env (shared pl)) url t). by injection Hstep as <- <-.
Qed.

Lemma pool_run_release {A : Type} lock (pl : Pool A) held ms :
  pool_inv lock pl held →
  in_window lock pl ms →
  released_by_holder lock held (snd (pool_run pl ms)).
Proof.
  revert pl held. induction ms as [|m ms IH]; intros pl held Hinv Hwin; [done|].
  destruct Hwin as [Hlive Hwin]. simpl.
  destruct (pool_step pl m) as [pl1 tr1] eqn:Hstep.
  pose proof (pool_step_release _ _ _ _ _ _ Hinv Hstep) as Hrel1.
  destruct (pool_step_inv _ _ _ _ _ _ Hinv Hlive Hstep) as [Hinv1 _].
  specialize (IH pl1 _ Hinv1 Hwin).
  destruct (pool_run pl1 ms) as [pl2 tr2]. simpl in *.
  destruct m as [i|e]; simpl in Hstep.
  - destruct (workers pl !! i) as [p|]; [|by injection Hstep as <- <-].
    destruct (head_step p (shared pl)) as [[[[ev a] p'] w']|]; injection Hstep as <- <-; [|done].
    simpl. by destruct Hrel1 as [Hev _].
  - by injection Hstep as <- <-.
Qed.

(** X19. Among concurrent workers, the lock is only ever deleted by the worker
    that holds it: a worker that lost the contest, or has not yet contested,
    never deletes another worker's lock, and no other key is ever deleted. *)
Theorem only_the_holder_releases s (requests : list (nat * HttpRequest)) (w : World Env) ms :
  distinct_keys s →
  let lock := CatalogCache.cfg_lock_key s in
  let pl := {| shared := w;
               workers := (λ r, CatalogCache.courses_all r.1 s r.2) <$> requests |} in
  in_window lock pl ms →
  ∀ tr1 i key a tr2,
    snd (pool_run pl ms) = tr1 ++ (i, EvDelete key, a) :: tr2 →
    key = lock ∧ holders lock [] tr1 = [i] ∧ holders lock [] (tr1 ++ [(i, EvDelete key, a)]) = [].
Proof.
  intros (Hcs & Hcl & Hsl) lock pl Hwin tr1 i key a tr2 Heq.
  assert (pool_inv lock pl []) as Hinv.
  { split; [by left|]. intros j p Hp. rewrite decide_False by apply not_elem_of_nil.
    unfold pl in Hp. simpl in Hp. apply list_lookup_fmap_Some in Hp as ([fuel req] & -> & _).
    by apply contender_courses_all. }
  pose proof (pool_run_release lock pl [] ms Hinv Hwin) as Hrel. rewrite Heq in Hrel.
  apply released_by_holder_app in Hrel as [[-> Hheld] _].
  split_and!; [done|done|]. rewrite holders_app, Hheld. simpl. rewrite String.eqb_refl.
  by rewrite filter_cons_False by (simpl; auto).
Qed.
End Release.

(** ** The further properties at work on concrete inputs *)

Lemma fetch_only_asks_upstream_witness :
  store (scripted_world 1003 three_pages ∅) = store cold ∧
  Forall (λ ev, ∃ url, ev = EvHttp url 8)
    [EvHttp (PStr page1_url) 8; EvHttp (PStr page2_url) 8; EvHttp (PStr page3_url) 8] ∧
  (length [EvHttp (PStr page1_url) 8; EvHttp (PStr page2_url) 8; EvHttp (PStr page3_url) 8]
   ≤ 10)%nat.
Proof.
  refine (fetch_only_asks_upstream 10 no_settings lms_request cold
            (Returned [course "a"; course "b"; course "c"; course "d"; course "e"])
            (scripted_world 1003 three_pages ∅) _ _).
  vm_compute; reflexivity.
Defined.

Lemma transport_error_aborts_fetch_witness :
  ∃ tr,
    run (CatalogCache._fetch_all_courses_from_courses_api 5 no_settings lms_request)
        (scripted_world 1000 half_upstream ∅) =
      (Raised (RequestException "connection refused"),
       scripted_world 1002 half_upstream ∅, tr) ∧
    length tr = 2%nat.
Proof.
  refine (transport_error_aborts_fetch 5 no_settings lms_request
            (scripted_world 1000 half_upstream ∅) [[course "a"; course "b"]]
            {| s_now := 1001; s_latency := 1; s_routes := half_upstream |}
            (PStr page2_url) (RequestException "connection refused")
            {| s_now := 1002; s_latency := 1; s_routes := half_upstream |} _ _ _ _).
  - eapply paging_cons;
      [ reflexivity
      | vm_compute; reflexivity
      | split; [reflexivity | eexists _, _; split_and!; reflexivity]
      | apply paging_nil ].
  - reflexivity.
  - vm_compute; reflexivity.
  - simpl; lia.
Defined.

Lemma bad_body_aborts_fetch_witness :
  run (CatalogCache.fetch_loop 3 no_settings (PStr page1_url) 1 [])
      (scripted_world 1000 [(page1_url, HttpResp array_page)] ∅) =
    (Raised (AttributeError "'list' object has no attribute 'get'"),
     scripted_world 1001 [(page1_url, HttpResp array_page)] ∅,
     [EvHttp (PStr page1_url) 8]).
Proof.
  refine (bad_body_aborts_fetch 2 no_settings (PStr page1_url) 1 []
            (scripted_world 1000 [(page1_url, HttpResp array_page)] ∅) array_page
            {| s_now := 1001; s_latency := 1; s_routes := [(page1_url, HttpResp array_page)] |}
            _ _ _ _).
  - reflexivity.
  - vm_compute; reflexivity.
  - reflexivity.
  - intros data. discriminate.
Defined.

Lemma falsy_pagination_ends_fetch_witness :
  run (CatalogCache.fetch_loop 3 no_settings (PStr page1_url) 1 [])
      (scripted_world 1000 [(page1_url, HttpResp single_page)] ∅) =
    (Returned [course "a"],
     scripted_world 1001 [(page1_url, HttpResp single_page)] ∅,
     [EvHttp (PStr page1_url) 8]).
Proof.
  refine (falsy_pagination_ends_fetch 2 no_settings (PStr page1_url) 1 []
            (scripted_world 1000 [(page1_url, HttpResp single_page)] ∅) single_page
            {| s_now := 1001; s_latency := 1; s_routes := [(page1_url, HttpResp single_page)] |}
            [("results", PList [course "a"])] [course "a"] _ _ _ _ _ _).
  - reflexivity.
  - vm_compute; reflexivity.
  - reflexivity.
  - reflexivity.
  - reflexivity.
  - reflexivity.
Defined.

Lemma non_object_pagination_aborts_fetch_witness :
  run (CatalogCache.fetch_loop 3 no_settings (PStr page1_url) 1 [])
      (scripted_world 1000 [(page1_url, HttpResp string_pagination_page)] ∅) =
    (Raised (AttributeError "'str' object has no attribute 'get'"),
     scripted_world 1001 [(page1_url, HttpResp string_pagination_page)] ∅,
     [EvHttp (PStr page1_url) 8]).
Proof.
  refine (non_object_pagination_aborts_fetch 2 no_settings (PStr page1_url) 1 []
            (scripted_world 1000 [(page1_url, HttpResp string_pagination_page)] ∅)
            string_pagination_page
            {| s_now := 1001; s_latency := 1;
               s_routes := [(page1_url, HttpResp string_pagination_page)] |}
            [("results", PList [course "a"]); ("pagination", PStr "page=2")]
            (PStr "page=2") _ _ _ _ _ _ _).
  - reflexivity.
  - vm_compute; reflexivity.
  - reflexivity.
  - reflexivity.
  - reflexivity.
  - reflexivity.
  - intros d. discriminate.
Defined.

Lemma fresh_hit_is_read_only_witness :
  run (CatalogCache.courses_all 10 no_settings lms_request) empty_catalog =
    (Returned {| status := 200; payload := snapshot_payload (PList []) 0 "cache" "1000" |},
     empty_catalog, [EvGet "upvx:courses_all:v1"; EvNow]).
Proof.
  refine (fresh_hit_is_read_only 10 no_settings lms_request empty_catalog [] _).
  vm_compute; reflexivity.
Defined.

Lemma loser_changes_nothing_witness :
  ∃ o rest,
    run (CatalogCache.courses_all 10 no_settings lms_request) locked =
      (o, locked,
       EvGet "upvx:courses_all:v1" :: EvAdd "upvx:courses_all:lock:v1" (PStr "1") 20 :: rest) ∧
    o ≠ Looping ∧
    Forall reads_only rest.
Proof.
  refine (loser_changes_nothing 10 no_settings lms_request locked (PStr "1") _ _).
  - vm_compute; reflexivity.
  - vm_compute; reflexivity.
Defined.

Lemma expired_lock_is_taken_over_witness :
  ∃ o w' tr,
    run (CatalogCache.courses_all 10 no_settings lms_request) abandoned_lock =
      (o, w', EvGet "upvx:courses_all:v1" :: EvAdd "upvx:courses_all:lock:v1" (PStr "1") 20
                :: EvHttp (first_url no_settings lms_request) 8 :: tr).
Proof.
  refine (expired_lock_is_taken_over 9 no_settings lms_request abandoned_lock (PStr "1") 990
            _ _ _).
  - vm_compute; reflexivity.
  - vm_compute; reflexivity.
  - vm_compute; discriminate.
Defined.

Lemma empty_store_sized : store_sized (∅ : gmap string (pyobj * Z)).
Proof. intros key v expiry Hin. by rewrite lookup_empty in Hin. Qed.

Lemma view_answers_200_502_503_witness :
  (∃ resp,
     (run (CatalogCache.courses_all 10 no_settings lms_request) cold).1.1 = Returned resp ∧
     (status resp = 200 ∨ status resp = 502 ∨ status resp = 503)) ∧
  store_sized (store (run (CatalogCache.courses_all 10 no_settings lms_request) cold).1.2).
Proof.
  refine (view_answers_200_502_503 10 no_settings lms_request cold _ _
            (run (CatalogCache.courses_all 10 no_settings lms_request) cold).2 _ _ _).
  - exact empty_store_sized.
  - by destruct (run _ _) as [[? ?] ?].
  - vm_compute; discriminate.
Defined.

Lemma tiers_written_only_by_refresh_witness :
  ∃ results generated_at,
    PList [course "a"; course "b"; course "c"; course "d"; course "e"] = PList results ∧
    ("upvx:courses_all:stale:v1" = CatalogCache.cfg_cache_key no_settings ∧
       86400 = CatalogCache.cfg_cache_ttl no_settings ∨
     "upvx:courses_all:stale:v1" = CatalogCache.cfg_stale_key no_settings ∧
       86400 = CatalogCache.cfg_stale_ttl no_settings) ∧
    (run (CatalogCache.courses_all 10 no_settings lms_request) cold).1.1 =
      Returned {| status := 200;
                  payload := snapshot_payload (PList results) (Z.of_nat (length results))
                               "fresh" generated_at |}.
Proof.
  refine (tiers_written_only_by_refresh 10 no_settings lms_request cold _
            (run (CatalogCache.courses_all 10 no_settings lms_request) cold).1.2
            (run (CatalogCache.courses_all 10 no_settings lms_request) cold).2
            "upvx:courses_all:stale:v1"
            (PList [course "a"; course "b"; course "c"; course "d"; course "e"]) 86400 _ _).
  - by destruct (run _ _) as [[? ?] ?].
  - vm_compute. do 6 apply list_elem_of_further. apply list_elem_of_here.
Defined.

Lemma stale_serves_after_fresh_expiry_witness :
  ∃ w'' tr,
    run (CatalogCache.courses_all 10 no_settings lms_request) after_refresh =
      (Returned {| status := 200;
                   payload := snapshot_payload
                                (PList [course "a"; course "b"; course "c"; course "d"; course "e"])
                                5 "stale" "2001" |}, w'', tr).
Proof.
  refine (stale_serves_after_fresh_expiry 10 no_settings lms_request cold
            [course "a"; course "b"; course "c"; course "d"; course "e"]
            (scripted_world 1003 three_pages
               (<["upvx:courses_all:lock:v1" := (PStr "1", 1020)]> ∅))
            [EvHttp (PStr page1_url) 8; EvHttp (PStr page2_url) 8; EvHttp (PStr page3_url) 8]
            after_refresh 10 lms_request (RequestException "connection refused")
            {| store := <["upvx:courses_all:lock:v1" := (PStr "1", 2020)]> (store after_refresh);
               env := {| s_now := 2001; s_latency := 1; s_routes := [] |} |}
            [EvHttp (PStr page1_url) 8] _ _ _ _ _ _ _ _).
  - repeat split; discriminate.
  - vm_compute; reflexivity.
  - vm_compute; reflexivity.
  - vm_compute; reflexivity.
  - reflexivity.
  - vm_compute; discriminate.
  - vm_compute; reflexivity.
  - vm_compute; reflexivity.
Defined.

Lemma self_loop_endless : endless 8 on_self_loop.
Proof.
  intros e url [-> Hroutes]. split; [reflexivity|].
  exists {| status_code := 200; text := "";
            resp_json := inr (PDict [("results", PList [course "a"]);
                                    ("pagination", PDict [("next", PStr page1_url)])]) |},
    {| s_now := s_now e + s_latency e; s_latency := s_latency e; s_routes := s_routes e |},
    [course "a"], (PStr page1_url).
  split_and!.
  - simpl. by rewrite Hroutes.
  - split; [reflexivity|]. eexists _, _. split_and!; reflexivity.
  - done.
Qed.

Lemma endless_pagination_never_returns_witness :
  ∃ w' ftr,
    length ftr = 25%nat ∧
    Forall is_http ftr ∧
    run (CatalogCache.courses_all 25 no_settings lms_request) (scripted_world 1000 self_loop ∅) =
      (Looping, w',
       EvGet "upvx:courses_all:v1" :: EvAdd "upvx:courses_all:lock:v1" (PStr "1") 20 :: ftr) ∧
    store w' = <["upvx:courses_all:lock:v1" := (PStr "1", 1000 + 20)]> ∅.
Proof.
  refine (endless_pagination_never_returns on_self_loop 25 no_settings lms_request
            (scripted_world 1000 self_loop ∅) self_loop_endless _ _ _).
  - split; reflexivity.
  - vm_compute; reflexivity.
  - vm_compute; reflexivity.
Defined.

Lemma site_root_overrides_request_witness :
  CatalogCache._build_internal_url rooted_settings lms_request "/api/courses/v1/courses/"
    "?page_size=100" = "https://lms.example.org/api/courses/v1/courses/?page_size=100" ∧
  CatalogCache._build_internal_url rooted_settings lms_request "/api/courses/v1/courses/"
    "?page_size=100" =
  CatalogCache._build_internal_url rooted_settings plain_request "/api/courses/v1/courses/"
    "?page_size=100".
Proof.
  refine (site_root_overrides_request rooted_settings lms_request plain_request
            "/api/courses/v1/courses/" "?page_size=100" _).
  vm_compute; discriminate.
Defined.

Lemma blank_site_root_falls_back_to_request_witness :
  CatalogCache._build_internal_url slash_settings plain_request "/api/courses/v1/courses/"
    "?page_size=100" = "http://localhost:8000/api/courses/v1/courses/?page_size=100".
Proof.
  refine (blank_site_root_falls_back_to_request slash_settings plain_request
            "/api/courses/v1/courses/" "?page_size=100" 2 _).
  reflexivity.
Defined.

Lemma legacy_lock_released_witness :
  ∃ o w' tr,
    run (Legacy.courses_all 10 rooted_settings lms_request)
        (scripted_world 1000 [] ∅) =
      (o, w', tr ++ [EvDelete "upvx:courses_all:lock:v1"]) ∧
    o ≠ Looping ∧
    store w' !! "upvx:courses_all:lock:v1" = None.
Proof.
  refine (legacy_lock_released 10 rooted_settings lms_request (scripted_world 1000 [] ∅)
            (Raised (RequestException "connection refused"))
            (scripted_world 1001 [] (<["upvx:courses_all:lock:v1" := (PStr "1", 1020)]> ∅))
            [EvHttp (PStr "https://lms.example.org/api/courses/v1/courses/?page_size=100") 8]
            _ _ _ _).
  - vm_compute; reflexivity.
  - vm_compute; reflexivity.
  - vm_compute; reflexivity.
  - discriminate.
Defined.

Lemma contest_in_window : in_window "upvx:courses_all:lock:v1" two_workers contest.
Proof.
  unfold contest. cbn [in_window].
  repeat (split; [intros v expiry Heq; vm_compute in Heq; try discriminate;
                  injection Heq as <- <-; vm_compute; reflexivity|]).
  exact I.
Qed.

Lemma only_the_holder_releases_witness :
  let lock := "upvx:courses_all:lock:v1" in
  let tr := snd (pool_run two_workers contest) in
  tr = List.removelast tr ++ [(0%nat, EvDelete lock, AUnit)] ∧
  holders lock [] (List.removelast tr) = [0%nat] ∧
  holders lock [] (List.removelast tr ++ [(0%nat, EvDelete lock, AUnit)]) = [].
Proof.
  intros lock tr.
  assert (tr = List.removelast tr ++ [(0%nat, EvDelete lock, AUnit)]) as Hlast
    by (vm_compute; reflexivity).
  split; [exact Hlast|].
  refine (proj2 (only_the_holder_releases no_settings
                   [(10%nat, lms_request); (10%nat, lms_request)] cold contest _
                   contest_in_window (List.removelast tr) 0%nat lock AUnit [] Hlast)).
  repeat split; discriminate.
Defined.

(** ** What the caller sees and what the view touches *)

Section Surface.
Context {Env : Type} `{Environment Env}.
Import CatalogCache.

(** X20. When a refresh fails on a page that is not a 200 and no stale entry
    can be read, the caller gets a 502 whose [error] is the fetcher's
    message: the number of the failing page, its status and at most the
    first 300 characters of its body. *)
Theorem non_200_surfaces_as_502 fuel s req (w : World Env) pages e1 url1 resp e2 :
  store_get w (cfg_cache_key s) = PNone →
  live (store w) (clock (env w)) (cfg_lock_key s) = None →
  paging (cfg_request_timeout s) (env w) (first_url s req) pages e1 url1 →
  truthy url1 = true →
  http_get e1 url1 (cfg_request_timeout s) = (HttpResp resp, e2) →
  status_code resp ≠ 200 →
  (length pages < fuel)%nat →
  store_get {| store := <[cfg_lock_key s := (PStr "1", clock (env w) + cfg_lock_ttl s)]> (store w);
               env := e2 |} (cfg_stale_key s) = PNone →
  ∃ w' tr,
    run (courses_all fuel s req) w =
      (Returned {| status := 502;
                   payload := PDict
                     [("detail", PStr "Could not refresh courses catalog and no stale cache available.");
                      ("error", PStr ("Courses API failed page=" +:+ pretty (1 + Z.of_nat (length pages))
                                        +:+ " status=" +:+ pretty (status_code resp)
                                        +:+ " body=" +:+ str_prefix 300 (text resp)));
                      ("generated_at", PStr (isoformat (clock e2)))] |}, w', tr).
Proof.
  intros Hmiss Hfree Hpaging Hurl Hget Hstatus Hfuel Hstale.
  rewrite (run_courses_all_acquired _ _ _ _ Hmiss Hfree). cbv zeta.
  set (w1 := store_set w (cfg_lock_key s) (PStr "1") (cfg_lock_ttl s)).
  replace fuel with (length pages + S (fuel - S (length pages)))%nat by lia.
  destruct (fetch_loop_paging (S (fuel - S (length pages))) s (first_url s req) 1 [] w1
              pages e1 url1 Hpaging) as (tr0 & Hlen & Hhttp & Hrun).
  unfold _fetch_all_courses_from_courses_api. fold (first_url s req). rewrite Hrun.
  rewrite (fetch_loop_not_200 _ s url1 _ _ {| store := store w1; env := e1 |} resp e2
             Hurl Hget Hstatus).
  cbn [store env]. unfold w1 at 1. cbn [store_set store]. rewrite Hstale.
  cbn [is_not_none]. by eexists _, _.
Qed.

(** X21. The view works on its three keys and on nothing else: every cache
    operation it performs names the fresh, the stale or the lock key, and
    every other entry of the store is left exactly as it was. *)
Theorem view_touches_only_its_keys fuel s req (w : World Env) o w' tr :
  run (courses_all fuel s req) w = (o, w', tr) →
  (∀ ev key, ev ∈ tr → event_key ev = Some key →
     key = cfg_cache_key s ∨ key = cfg_stale_key s ∨ key = cfg_lock_key s) ∧
  (∀ key, key ≠ cfg_cache_key s → key ≠ cfg_stale_key s → key ≠ cfg_lock_key s →
     store w' !! key = store w !! key).
Proof.
  intros Hrun.
  set (P := λ ev : Event, ∀ key, event_key ev = Some key →
              key = cfg_cache_key s ∨ key = cfg_stale_key s ∨ key = cfg_lock_key s).
  assert (∀ ftr : list Event, Forall is_http ftr → Forall P ftr) as Hhttp.
  { intros ftr Hall. eapply Forall_impl; [exact Hall|]. by intros []. }
  assert (P (EvGet (cfg_cache_key s))) as Pget by (intros ? [= <-]; auto).
  assert (P (EvGet (cfg_stale_key s))) as Pstale by (intros ? [= <-]; auto).
  assert (P (EvAdd (cfg_lock_key s) (PStr "1") (cfg_lock_ttl s))) as Padd
    by (intros ? [= <-]; auto).
  assert (P (EvDelete (cfg_lock_key s))) as Pdel by (intros ? [= <-]; auto).
  assert (P EvNow) as Pnow by done.
  assert (∀ v t, P (EvSet (cfg_cache_key s) v t)) as Pset1 by (intros ? ? ? [= <-]; auto).
  assert (∀ v t, P (EvSet (cfg_stale_key s) v t)) as Pset2 by (intros ? ? ? [= <-]; auto).
  enough (Forall P tr ∧
          ∀ key, key ≠ cfg_cache_key s → key ≠ cfg_stale_key s → key ≠ cfg_lock_key s →
                 store w' !! key = store w !! key) as [Hall Hframe].
  { split; [|done]. intros ev key Hin. rewrite Forall_forall in Hall. by apply Hall. }
  destruct (is_not_none (store_get w (cfg_cache_key s))) eqn:Hhit.
  { rewrite (run_courses_all_hit _ _ _ _ _ eq_refl Hhit), run_json_response in Hrun.
    destruct (py_len _); injection Hrun as <- <- <-; (split; [|done]);
      repeat (apply Forall_cons_2; [done|]); by apply Forall_nil. }
  assert (store_get w (cfg_cache_key s) = PNone) as Hmiss.
  { by destruct (store_get w (cfg_cache_key s)). }
  destruct (live (store w) (clock (env w)) (cfg_lock_key s)) as [held|] eqn:Hlock.
  - rewrite (run_courses_all_lost _ _ _ _ _ Hmiss Hlock) in Hrun. cbv zeta in Hrun.
    destruct (is_not_none _); [destruct (py_len _)|]; injection Hrun as <- <- <-;
      (split; [|done]); repeat (apply Forall_cons_2; [done|]); by apply Forall_nil.
  - rewrite (run_courses_all_acquired _ _ _ _ Hmiss Hlock) in Hrun. cbv zeta in Hrun.
    destruct (run (_fetch_all_courses_from_courses_api fuel s req) _)
      as [[[results|exc|] w2] ftr] eqn:Hfetch; apply fetch_store in Hfetch as [Hst Hall];
      apply Hhttp in Hall.
    + injection Hrun as <- <- <-. split.
      * do 2 (apply Forall_cons_2; [done|]). apply Forall_app. split; [done|].
        repeat (apply Forall_cons_2; [done|]). by apply Forall_nil.
      * intros key Hc Hs Hl. simpl. rewrite lookup_delete_ne by done.
        rewrite !lookup_insert_ne by done. rewrite Hst. simpl.
        by rewrite lookup_insert_ne.
    + assert (∀ key, key ≠ cfg_cache_key s → key ≠ cfg_stale_key s → key ≠ cfg_lock_key s →
                store (store_delete w2 (cfg_lock_key s)) !! key = store w !! key) as Hframe.
      { intros key _ _ Hl. simpl. rewrite lookup_delete_ne by done. rewrite Hst. simpl.
        by rewrite lookup_insert_ne. }
      destruct (is_not_none _); [destruct (py_len _)|]; injection Hrun as <- <- <-;
        (split; [|exact Hframe]);
        (do 2 (apply Forall_cons_2; [done|])); (apply Forall_app; split; [done|]);
        repeat (apply Forall_cons_2; [done|]); by apply Forall_nil.
    + injection Hrun as <- <- <-. split.
      * by do 2 (apply Forall_cons_2; [done|]).
      * intros key Hc Hs Hl. rewrite Hst. simpl. by rewrite lookup_insert_ne.
Qed.
End Surface.

Lemma non_200_surfaces_as_502_witness :
  ∃ w' tr,
    run (CatalogCache.courses_all 5 no_settings lms_request) cold_broken =
      (Returned {| status := 502;
                   payload := PDict
                     [("detail", PStr "Could not refresh courses catalog and no stale cache available.");
                      ("error", PStr "Courses API failed page=2 status=500 body=Internal Server Error");
                      ("generated_at", PStr "1002")] |}, w', tr).
Proof.
  refine (non_200_surfaces_as_502 5 no_settings lms_request cold_broken
            [[course "a"; course "b"]]
            {| s_now := 1001; s_latency := 1; s_routes := broken_upstream |}
            (PStr page2_url) broken_page
            {| s_now := 1002; s_latency := 1; s_routes := broken_upstream |}
            _ _ _ _ _ _ _ _).
  - vm_compute; reflexivity.
  - vm_compute; reflexivity.
  - eapply paging_cons;
      [ reflexivity
      | vm_compute; reflexivity
      | split; [reflexivity | eexists _, _; split_and!; reflexivity]
      | apply paging_nil ].
  - reflexivity.
  - vm_compute; reflexivity.
  - discriminate.
  - simpl; lia.
  - vm_compute; reflexivity.
Defined.

Lemma view_touches_only_its_keys_witness :
  (∀ ev key,
     ev ∈ (run (CatalogCache.courses_all 10 no_settings lms_request) after_refresh).2 →
     event_key ev = Some key →
     key = CatalogCache.cfg_cache_key no_settings ∨
     key = CatalogCache.cfg_stale_key no_settings ∨
     key = CatalogCache.cfg_lock_key no_settings) ∧
  (∀ key,
     key ≠ CatalogCache.cfg_cache_key no_settings →
     key ≠ CatalogCache.cfg_stale_key no_settings →
     key ≠ CatalogCache.cfg_lock_key no_settings →
     store (run (CatalogCache.courses_all 10 no_settings lms_request) after_refresh).1.2 !! key
     = store after_refresh !! key).
Proof.
  refine (view_touches_only_its_keys 10 no_settings lms_request after_refresh
            (run (CatalogCache.courses_all 10 no_settings lms_request) after_refresh).1.1
            (run (CatalogCache.courses_all 10 no_settings lms_request) after_refresh).1.2
            (run (CatalogCache.courses_all 10 no_settings lms_request) after_refresh).2 _).
  by destruct (run _ _) as [[? ?] ?].
Defined.
